(** * BlogBot: a shallow embedding of [main.py]

    The program is a Streamlit page that chains three AutoGen agents
    (Researcher, Writer, Editor).  This development embeds

    - Python's [str] as [list ascii] (code points 0..255, i.e. Latin-1);
    - the two [re.sub] calls of [clean_agent_output] through a small
      backtracking matcher for the regex fragment they use;
    - the inline validation conditions of the three stages;
    - the module-level script as a computation in a state/trace/exception
      monad, run against an arbitrary (stateful) completion service.  *)

From Stdlib Require Import List Bool Arith NArith QArith Lia.
From Stdlib Require Import Ascii String.
Import ListNotations.

Set Implicit Arguments.

Close Scope Q_scope.
Open Scope string_scope.
Open Scope list_scope.

(** ** Python strings *)

Module PyStr.

Definition pystr := list ascii.

(** String literals of the source, written as Rocq strings. *)
Definition str (s : string) : pystr := list_ascii_of_string s.

Definition code (c : ascii) : N := N_of_ascii c.

(** [Py_UNICODE_ISSPACE], restricted to code points below 256.  Both
    [str.strip()] and the regex class [\s] (on [str] patterns) use it. *)
Definition is_space (c : ascii) : bool :=
  let n := code c in
  (((9 <=? n) && (n <=? 13)) || ((28 <=? n) && (n <=? 32))
   || (n =? 133) || (n =? 160))%N.

(** [str.lower()] on Latin-1: A-Z and the accented capitals
    U+00C0..U+00DE (without the multiplication sign U+00D7) move up by 32. *)
Definition lower_char (c : ascii) : ascii :=
  let n := code c in
  if (((65 <=? n) && (n <=? 90))
      || ((192 <=? n) && (n <=? 222) && negb (n =? 215)))%N
  then ascii_of_N (n + 32) else c.

Definition lower (s : pystr) : pystr := map lower_char s.

(** [s.startswith(p)] *)
Fixpoint startswith (s p : pystr) {struct p} : bool :=
  match p with
  | [] => true
  | a :: p' =>
      match s with
      | [] => false
      | b :: s' => Ascii.eqb a b && startswith s' p'
      end
  end.

(** [p in s] for two strings: substring search. *)
Fixpoint contains (p s : pystr) : bool :=
  startswith s p ||
  match s with
  | [] => false
  | _ :: s' => contains p s'
  end.

Fixpoint lstrip (s : pystr) : pystr :=
  match s with
  | [] => []
  | c :: s' => if is_space c then lstrip s' else s
  end.

Definition rstrip (s : pystr) : pystr := rev (lstrip (rev s)).

(** [s.strip()] *)
Definition strip (s : pystr) : pystr := rstrip (lstrip s).

(** Truthiness of a [str]: non-empty. *)
Definition truthy (s : pystr) : bool :=
  match s with [] => false | _ :: _ => true end.

End PyStr.
Export PyStr.

(** ** The regex fragment used by [clean_agent_output]

    Patterns are sequences of atoms.  The matcher is the usual backtracking
    one: a greedy star tries the longest run first, a lazy star the
    shortest, and the first successful alternative wins.  The flag [bos]
    records whether the current position is the start of the subject, which
    is where [^] matches when [re.MULTILINE] is off. *)

Module Re.

Inductive atom : Type :=
| Bol                                  (* ^ *)
| Eol                                  (* $ *)
| Lit (c : ascii)                      (* a literal character *)
| Star (cls : ascii -> bool)           (* cls*   (greedy) *)
| Lazy (cls : ascii -> bool).          (* cls*?  (lazy) *)

Definition regex := list atom.

(** [.] under [re.DOTALL] *)
Definition any (_ : ascii) : bool := true.

(** [$] without MULTILINE: at the end, or just before a final newline. *)
Definition at_eol (s : pystr) : bool :=
  match s with
  | [] => true
  | [c] => Ascii.eqb c "010"%char
  | _ => false
  end.

Fixpoint greedy (cls : ascii -> bool) (k : bool -> pystr -> option pystr)
         (bos : bool) (s : pystr) : option pystr :=
  match s with
  | c :: s' =>
      if cls c then
        match greedy cls k false s' with
        | Some r => Some r
        | None => k bos s
        end
      else k bos s
  | [] => k bos s
  end.

Fixpoint lazy (cls : ascii -> bool) (k : bool -> pystr -> option pystr)
         (bos : bool) (s : pystr) : option pystr :=
  match k bos s with
  | Some r => Some r
  | None =>
      match s with
      | c :: s' => if cls c then lazy cls k false s' else None
      | [] => None
      end
  end.

(** [rmatch p bos s]: match [p] at the head of [s]; the result is what is
    left of [s] after the match. *)
Fixpoint rmatch (p : regex) (bos : bool) (s : pystr) : option pystr :=
  match p with
  | [] => Some s
  | Bol :: p' => if bos then rmatch p' bos s else None
  | Eol :: p' => if at_eol s then rmatch p' bos s else None
  | Lit c :: p' =>
      match s with
      | x :: s' => if Ascii.eqb c x then rmatch p' false s' else None
      | [] => None
      end
  | Star cls :: p' => greedy cls (rmatch p') bos s
  | Lazy cls :: p' => lazy cls (rmatch p') bos s
  end.

(** [re.sub(p, '', s)]: scan left to right, delete each leftmost match and
    go on after it.  With the empty replacement an empty match deletes
    nothing, so the scan just steps over one character there.  The fuel
    bounds the number of scan steps; [S (length s)] is always enough. *)
Fixpoint sub_from (fuel : nat) (p : regex) (bos : bool) (s : pystr) : pystr :=
  match fuel with
  | O => s
  | S fuel' =>
      match rmatch p bos s with
      | Some r =>
          if (List.length r <? List.length s)%nat then sub_from fuel' p false r
          else match s with
               | [] => []
               | c :: s' => c :: sub_from fuel' p false s'
               end
      | None =>
          match s with
          | [] => []
          | c :: s' => c :: sub_from fuel' p false s'
          end
      end
  end.

Definition sub_empty (p : regex) (s : pystr) : pystr :=
  sub_from (S (List.length s)) p true s.

Definition lits (s : string) : regex := map Lit (str s).

End Re.

(** ** [clean_agent_output] *)

Definition nl : string := String "010"%char EmptyString.

(** [r'^\s*>>>>>>>> .*?\n'] with [re.DOTALL] *)
Definition leading_banner : Re.regex :=
  [Re.Bol; Re.Star is_space] ++ Re.lits ">>>>>>>> "
  ++ [Re.Lazy Re.any] ++ Re.lits nl.

(** [r'\n>>>>>>>> .*?\s*$'] with [re.DOTALL] *)
Definition trailing_banner : Re.regex :=
  Re.lits nl ++ Re.lits ">>>>>>>> "
  ++ [Re.Lazy Re.any; Re.Star is_space; Re.Eol].

(** The function on [str] arguments; the [isinstance] guard of the source
    returns any other object untouched, and every call site passes a [str]. *)
Definition clean_agent_output (output : pystr) : pystr :=
  let output := Re.sub_empty leading_banner output in
  let output := Re.sub_empty trailing_banner output in
  strip output.

(** What the two substitutions amount to, written as direct recursions;
    [sub_leading_banner] and [sub_trailing_banner] in the theorems part
    relate them to the matcher. *)

Definition marker : pystr := str ">>>>>>>> ".

Fixpoint after_newline (s : pystr) : option pystr :=
  match s with
  | [] => None
  | c :: s' => if Ascii.eqb "010"%char c then Some s' else after_newline s'
  end.

(** Does [s] start (after blanks) with a banner line that is closed by a
    newline? *)
Definition banner_head (s : pystr) : bool :=
  startswith (lstrip s) marker
  && match after_newline (skipn (List.length marker) (lstrip s)) with
     | Some _ => true
     | None => false
     end.

Definition drop_leading_banner (s : pystr) : pystr :=
  if startswith (lstrip s) marker then
    match after_newline (skipn (List.length marker) (lstrip s)) with
    | Some r => r
    | None => s
    end
  else s.

Definition banner : pystr := str nl ++ marker.

Fixpoint cut_trailing_banner (s : pystr) : pystr :=
  if startswith s banner then []
  else match s with
       | [] => []
       | c :: s' => c :: cut_trailing_banner s'
       end.

(** ** Configuration and agents *)

Record ConfigEntry : Type := {
  model : pystr;
  api_key : option pystr;
  api_type : pystr
}.

(** [os.getenv("GOOGLE_API_KEY")] is an input of the program. *)
Definition config_list (google_api_key : option pystr) : list ConfigEntry :=
  [ {| model := str "gemini-1.5-flash";
       api_key := google_api_key;
       api_type := str "google" |} ].

(** The dict literal binds ["config_list"] twice to the same object; the
    record keeps the three keys.  The temperature literal 0.7 is kept as
    the decimal it is written as. *)
Record LlmConfig : Type := {
  cfg_config_list : list ConfigEntry;
  seed : Z;
  temperature : Q
}.

Definition llm_config (google_api_key : option pystr) : LlmConfig :=
  {| cfg_config_list := config_list google_api_key;
     seed := 42;
     temperature := (7 # 10)%Q |}.

Inductive Role : Type := Researcher | Writer | Editor.

Definition Role_eqb (a b : Role) : bool :=
  match a, b with
  | Researcher, Researcher | Writer, Writer | Editor, Editor => true
  | _, _ => false
  end.

(** [autogen.AssistantAgent(name=..., llm_config=llm_config, ...)]; the
    instruction texts play no part in the control flow and are left out. *)
Record AssistantAgent : Type := {
  agent_name : pystr;
  agent_llm_config : LlmConfig
}.

Definition researcher_agent (key : option pystr) : AssistantAgent :=
  {| agent_name := str "Researcher"; agent_llm_config := llm_config key |}.
Definition writer_agent (key : option pystr) : AssistantAgent :=
  {| agent_name := str "Writer"; agent_llm_config := llm_config key |}.
Definition editor_agent (key : option pystr) : AssistantAgent :=
  {| agent_name := str "Editor"; agent_llm_config := llm_config key |}.

Definition agent_of (key : option pystr) (r : Role) : AssistantAgent :=
  match r with
  | Researcher => researcher_agent key
  | Writer => writer_agent key
  | Editor => editor_agent key
  end.

Record UserProxyAgent : Type := {
  proxy_name : pystr;
  human_input_mode : pystr;
  proxy_max_consecutive_auto_reply : nat;
  code_execution_config : bool;
  proxy_llm_config : LlmConfig
}.

Definition user_proxy (key : option pystr) : UserProxyAgent :=
  {| proxy_name := str "UserProxy";
     human_input_mode := str "NEVER";
     proxy_max_consecutive_auto_reply := 2;
     code_execution_config := false;
     proxy_llm_config := llm_config key |}.

(** ** Validation conditions of the three stages (lines 127, 152, 171) *)

Definition research_placeholder : pystr := str "No research content generated.".
Definition draft_placeholder : pystr := str "No blog post draft generated.".
Definition final_placeholder : pystr := str "No final blog post generated.".

(** The condition of the [if] that guards the research error. *)
Definition research_invalid (research_content : pystr) : bool :=
  negb (truthy research_content)
  || contains research_placeholder research_content
  || startswith (lower (strip research_content)) (str "okay")
  || startswith (lower (strip research_content)) (str "awaiting")
  || contains (str "fact-checking process") (lower research_content)
  || contains (str "visual integration") (lower research_content)
  || startswith (lower (strip research_content)) (str "i will now proceed").

(** The condition of the [if] that guards the writing error. *)
Definition draft_invalid (blog_post_draft : pystr) : bool :=
  negb (truthy blog_post_draft)
  || contains draft_placeholder blog_post_draft
  || startswith (lower (strip blog_post_draft)) (str "i cannot create")
  || startswith (lower (strip blog_post_draft)) (str "i will now proceed").

(** The condition of the [if] that guards the final success message. *)
Definition final_ok (final_blog_post : pystr) : bool :=
  truthy final_blog_post
  && negb (contains final_placeholder final_blog_post)
  && negb (startswith (lower (strip final_blog_post))
             (str "i will now proceed")).

Definition research_error : pystr :=
  str "Research failed or returned invalid content. Cannot proceed with writing.".
Definition writing_error : pystr :=
  str "Writing failed or returned no content. Cannot proceed with editing.".
Definition editing_error : pystr :=
  str "Editing failed or returned no content.".

(** The three conditions read as one validator indexed by the stage; the
    reason of a rejection is the message the page shows for that stage. *)
Inductive verdict : Type :=
| Accepted (text : pystr)
| Rejected (reason : pystr).

Definition validate (r : Role) (text : pystr) : verdict :=
  match r with
  | Researcher =>
      if research_invalid text then Rejected research_error else Accepted text
  | Writer =>
      if draft_invalid text then Rejected writing_error else Accepted text
  | Editor =>
      if final_ok text then Accepted text else Rejected editing_error
  end.

Definition is_rejected (v : verdict) : bool :=
  match v with Rejected _ => true | Accepted _ => false end.

(** ** The page script

    What the user and the completion service can observe of one run of the
    script: the Streamlit calls and the [initiate_chat] calls, in order. *)

Inductive event : Type :=
| StTitle (body : pystr)
| StTextInput (label : pystr)
| StButton (label : pystr)
| SpinnerEnter (text : pystr)
| SpinnerExit
| StInfo (body : pystr)
| StError (body : pystr)
| StWarning (body : pystr)
| StSuccess (body : pystr)
| StSubheader (body : pystr)
| StWrite (body : pystr)
| InitiateChat (recipient : Role) (message : pystr) (clear_history : bool)
               (max_consecutive_auto_reply : nat).

(** [ChatResult]: only [summary] is read; it is [None] or a [str]. *)
Record ChatResult : Type := { summary : option pystr }.

(** An [initiate_chat] call either raises or returns [None] or a result. *)
Inductive reply : Type :=
| Raises
| Returns (result : option ChatResult).

Record chat_call : Type := {
  recipient : Role;
  message : pystr;
  clear_history : bool;
  max_consecutive_auto_reply : nat
}.

Inductive outcome (A : Type) : Type :=
| Done (a : A)
| Raised.
Arguments Raised {A}.

(** [X.summary if X and X.summary else placeholder] *)
Definition summary_or (result : option ChatResult) (placeholder : pystr)
  : pystr :=
  match result with
  | Some r =>
      match summary r with
      | Some s => if truthy s then s else placeholder
      | None => placeholder
      end
  | None => placeholder
  end.

Definition research_task (blog_name : pystr) : pystr :=
  str "Research content for a blog post on the topic: " ++ blog_name
  ++ str ". Provide key points, facts, and potential sections.".

Definition writing_task (research_content : pystr) : pystr :=
  str "Write a comprehensive blog post based on the following research findings:"
  ++ str nl ++ str nl ++ research_content ++ str nl ++ str nl
  ++ str "Ensure it is engaging and well-structured.".

Definition editing_task (blog_post_draft : pystr) : pystr :=
  str "Review and improve the following blog post for clarity, flow, and accuracy. Make it more meaningful and engaging. Provide the final, polished blog post."
  ++ str nl ++ str nl ++ blog_post_draft.

Section Script.

(** The completion service behind [user_proxy.initiate_chat]: any state
    type and any transition; a stub client is one instance. *)
Variable St : Type.
Variable service : St -> chat_call -> reply * St.

(** Computations: thread the service state, log events, may raise. *)
Definition M (A : Type) : Type := St -> outcome A * St * list event.

Definition ret {A} (a : A) : M A := fun s => (Done a, s, []).

Definition bind {A B} (m : M A) (f : A -> M B) : M B :=
  fun s =>
    match m s with
    | (Done a, s1, t1) =>
        match f a s1 with
        | (o, s2, t2) => (o, s2, t1 ++ t2)
        end
    | (Raised, s1, t1) => (Raised, s1, t1)
    end.

Definition emit (e : event) : M unit := fun s => (Done tt, s, [e]).

Definition initiate_chat (recipient : Role) (message : pystr)
           (clear_history : bool) (max_consecutive_auto_reply : nat)
  : M (option ChatResult) :=
  fun s =>
    let ev := InitiateChat recipient message clear_history
                max_consecutive_auto_reply in
    match service s {| recipient := recipient; message := message;
                       clear_history := clear_history;
                       max_consecutive_auto_reply :=
                         max_consecutive_auto_reply |} with
    | (Returns r, s1) => (Done r, s1, [ev])
    | (Raises, s1) => (Raised, s1, [ev])
    end.

(** [with st.spinner(text): body]: the spinner is left on every exit. *)
Definition with_spinner {A} (text : pystr) (body : M A) : M A :=
  fun s =>
    match body s with
    | (o, s1, t) => (o, s1, SpinnerEnter text :: t ++ [SpinnerExit])
    end.

Notation "x <- m ;; k" := (bind m (fun x => k))
  (at level 61, m at next level, right associativity).
Notation "m ;;; k" := (bind m (fun _ => k))
  (at level 61, right associativity).

(** Step 3, lines 156-174. *)
Definition editing_stage (blog_post_draft : pystr) : M unit :=
  emit (StInfo (str "Editor is reviewing and improving the blog post...")) ;;;
  editing_result <- initiate_chat Editor (editing_task blog_post_draft) true 1 ;;
  let final_blog_post := summary_or editing_result final_placeholder in
  let final_blog_post := clean_agent_output final_blog_post in
  emit (StSubheader (str "Final Blog Post:")) ;;;
  emit (StWrite final_blog_post) ;;;
  if final_ok final_blog_post
  then emit (StSuccess (str "Blog post generation complete!"))
  else emit (StError editing_error).

(** Step 2, lines 131-153, and then step 3. *)
Definition writing_stage (research_content : pystr) : M unit :=
  emit (StInfo (str "Writer is drafting the blog post...")) ;;;
  writing_result <- initiate_chat Writer (writing_task research_content) true 1 ;;
  let blog_post_draft := summary_or writing_result draft_placeholder in
  let blog_post_draft := clean_agent_output blog_post_draft in
  if draft_invalid blog_post_draft
  then emit (StError writing_error)
  else editing_stage blog_post_draft.

(** Step 1, lines 105-128, and then step 2. *)
Definition research_stage (blog_name : pystr) : M unit :=
  research_result <- initiate_chat Researcher (research_task blog_name) true 1 ;;
  let research_content := summary_or research_result research_placeholder in
  let research_content := clean_agent_output research_content in
  if research_invalid research_content
  then emit (StError research_error)
  else writing_stage research_content.

(** The script below the agent definitions (lines 94-177).  [blog_name] is
    what [st.text_input] returns and [clicked] what [st.button] returns. *)
Definition page (blog_name : pystr) (clicked : bool) : M unit :=
  emit (StTitle (str "BlogBot")) ;;;
  emit (StTextInput (str "Enter a topic name for the blog post:")) ;;;
  emit (StButton (str "Generate Blog Post")) ;;;
  if clicked then
    if truthy blog_name then
      with_spinner (str "Generating blog post...") (research_stage blog_name)
    else
      emit (StWarning (str "Please enter a topic name."))
  else ret tt.

Definition trace (blog_name : pystr) (clicked : bool) (s0 : St) : list event :=
  snd (page blog_name clicked s0).

Definition result (blog_name : pystr) (clicked : bool) (s0 : St)
  : outcome unit :=
  fst (fst (page blog_name clicked s0)).

End Script.

(** *** Reading a trace *)

Definition is_call_to (r : Role) (e : event) : bool :=
  match e with
  | InitiateChat r' _ _ _ => Role_eqb r r'
  | _ => false
  end.

(** The call count of a stub client for one recipient. *)
Definition calls_to (r : Role) (t : list event) : nat :=
  List.length (filter (is_call_to r) t).

Definition is_call (e : event) : bool :=
  match e with InitiateChat _ _ _ _ => true | _ => false end.

Definition call_budget (e : event) : option nat :=
  match e with
  | InitiateChat _ _ _ n => Some n
  | _ => None
  end.

(** Everything the page puts on display as content. *)
Definition written (t : list event) : list pystr :=
  flat_map (fun e => match e with StWrite b => [b] | _ => [] end) t.

Definition errors (t : list event) : list pystr :=
  flat_map (fun e => match e with StError b => [b] | _ => [] end) t.

Definition successes (t : list event) : list pystr :=
  flat_map (fun e => match e with StSuccess b => [b] | _ => [] end) t.

Definition warnings (t : list event) : list pystr :=
  flat_map (fun e => match e with StWarning b => [b] | _ => [] end) t.

(** *** Stub clients *)

(** A scripted client: it answers the n-th call with the n-th reply of its
    script and raises when the script is used up. *)
Definition scripted (s : list reply) (_ : chat_call) : reply * list reply :=
  match s with
  | r :: s' => (r, s')
  | [] => (Raises, [])
  end.

Definition says (text : string) : reply :=
  Returns (Some {| summary := Some (str text) |}).

(** *** The three call sites and what each stage keeps of the reply *)

Definition research_call (blog_name : pystr) : chat_call :=
  {| recipient := Researcher; message := research_task blog_name;
     clear_history := true; max_consecutive_auto_reply := 1 |}.

Definition writing_call (research_content : pystr) : chat_call :=
  {| recipient := Writer; message := writing_task research_content;
     clear_history := true; max_consecutive_auto_reply := 1 |}.

Definition editing_call (blog_post_draft : pystr) : chat_call :=
  {| recipient := Editor; message := editing_task blog_post_draft;
     clear_history := true; max_consecutive_auto_reply := 1 |}.

Definition call_event (c : chat_call) : event :=
  InitiateChat (recipient c) (message c) (clear_history c)
    (max_consecutive_auto_reply c).

(** Lines 114-115, 141-142 and 166-167. *)
Definition research_content (research_result : option ChatResult) : pystr :=
  clean_agent_output (summary_or research_result research_placeholder).

Definition blog_post_draft (writing_result : option ChatResult) : pystr :=
  clean_agent_output (summary_or writing_result draft_placeholder).

Definition final_blog_post (editing_result : option ChatResult) : pystr :=
  clean_agent_output (summary_or editing_result final_placeholder).

(** The service returned no content: no result object, no summary, or an
    empty summary. *)
Definition no_content (result : option ChatResult) : bool :=
  match result with
  | None => true
  | Some r =>
      match summary r with
      | None => true
      | Some s => negb (truthy s)
      end
  end.

(** What the page shows before the button is evaluated. *)
Definition page_head : list event :=
  [ StTitle (str "BlogBot");
    StTextInput (str "Enter a topic name for the blog post:");
    StButton (str "Generate Blog Post") ].

Definition spinner_text : pystr := str "Generating blog post...".
Definition writer_info : pystr := str "Writer is drafting the blog post...".
Definition editor_info : pystr :=
  str "Editor is reviewing and improving the blog post...".
Definition final_header : pystr := str "Final Blog Post:".
Definition success_text : pystr := str "Blog post generation complete!".
Definition topic_warning : pystr := str "Please enter a topic name.".

(** What [editing_stage] logs once the editor has answered. *)
Definition editing_events (draft : pystr) (r : option ChatResult) : list event :=
  [ StInfo editor_info; call_event (editing_call draft);
    StSubheader final_header; StWrite (final_blog_post r);
    if final_ok (final_blog_post r)
    then StSuccess success_text else StError editing_error ].

(** The budgets of the [initiate_chat] calls of a trace, in order. *)
Definition budgets (t : list event) : list nat :=
  flat_map (fun e => match call_budget e with
                     | Some n => [n]
                     | None => []
                     end) t.

(** The configuration a completion request runs under: that of the agent
    it is addressed to. *)
Definition request_config (key : option pystr) (e : event)
  : option LlmConfig :=
  match e with
  | InitiateChat r _ _ _ => Some (agent_llm_config (agent_of key r))
  | _ => None
  end.

(** *** Sample inputs *)

Definition banner_sample : pystr :=
  str ">>>>>>>> some banner" ++ str nl ++ str "ACTUAL CONTENT" ++ str nl
  ++ str ">>>>>>>> end banner".

Definition two_banners : pystr :=
  str ">>>>>>>> a" ++ str nl ++ str ">>>>>>>> b" ++ str nl ++ str "X".

Definition quoted_sentinel : pystr :=
  str "Note: No research content generated. (see above)".

Definition topic : pystr := str "tea".

(** Replies of three stub clients. *)
Definition filler_research : list reply :=
  [says "Okay, here is what I found."; says "a draft"; says "a final post"].

Definition refused_draft : list reply :=
  [says "bullet facts"; says "I cannot create this content.";
   says "a final post"].

Definition meta_final : list reply :=
  [says "bullet facts"; says "a draft paragraph";
   says "I will now proceed to polish the post."].

Definition filler_draft : list reply :=
  [says "bullet facts"; says "Okay, I will draft this now.";
   says "a polished paragraph"].

Definition silent_research : list reply :=
  [Returns None; says "a draft"; says "a final post"].

Definition silent_draft : list reply :=
  [says "bullet facts"; Returns (Some {| summary := None |});
   says "a final post"].

Definition silent_final : list reply :=
  [says "bullet facts"; says "a draft paragraph";
   Returns (Some {| summary := Some [] |})].

(** ** [is_termination_msg] (line 74)

    [lambda x: x.get("content", "").rstrip().endswith("TERMINATE")].  A
    message is a dict; its content is a [str] or [None], and [None] has no
    [rstrip], so the lambda raises on it. *)

Inductive pyval : Type :=
| PyNone
| PyStr (s : pystr).

(** A dict with [str] keys, as the list of its items; a key occurs once. *)
Definition pydict := list (pystr * pyval).

Definition pystr_eqb (a b : pystr) : bool :=
  if list_eq_dec ascii_dec a b then true else false.

(** [d.get(k, default)] *)
Fixpoint dict_get (d : pydict) (k : pystr) (default : pyval) : pyval :=
  match d with
  | [] => default
  | (k', v) :: d' => if pystr_eqb k' k then v else dict_get d' k default
  end.

(** [s.endswith(p)] *)
Definition endswith (s p : pystr) : bool := startswith (rev s) (rev p).

Definition is_termination_msg (x : pydict) : outcome bool :=
  match dict_get x (str "content") (PyStr (str "")) with
  | PyStr content => Done (endswith (rstrip content) (str "TERMINATE"))
  | PyNone => Raised
  end.

(** ** Repeated sanitizing and what a trace forwards *)

(** [n] passes of [clean_agent_output]. *)
Definition sanitize_passes (n : nat) (s : pystr) : pystr :=
  Nat.iter n clean_agent_output s.

(** A call to the Writer carries research content that passed the research
    check, a call to the Editor a draft that passed the writing check. *)
Definition forwards_accepted (e : event) : Prop :=
  match e with
  | InitiateChat Writer m _ _ =>
      exists content,
        m = writing_task content /\ validate Researcher content = Accepted content
  | InitiateChat Editor m _ _ =>
      exists draft,
        m = editing_task draft /\ validate Writer draft = Accepted draft
  | _ => True
  end.


(** All status messages of a trace: errors, successes and warnings. *)
Definition status_messages (t : list event) : list pystr :=
  flat_map (fun e => match e with
                     | StError b | StSuccess b | StWarning b => [b]
                     | _ => []
                     end) t.

(** *** Who bounds an exchange

    The script passes [max_consecutive_auto_reply=1] to each call, and the
    proxy that makes the call was built with a budget of 2.  How many
    automatic replies an exchange has is decided inside the service, by
    the chat loop of autogen, and not by the script.  [exchange_of turns]
    is a service that answers every call and logs, exchange by exchange,
    the number of automatic replies [turns] gives for the call: one that
    goes by the keyword of the call, and one that goes by the budget of
    the proxy and does not look at the keyword. *)





(** Two messages for the termination test. *)
Definition done_message : pydict :=
  [ (str "role", PyStr (str "assistant"));
    (str "content", PyStr (str "All done. TERMINATE" ++ str nl)) ].

Definition contentless_message : pydict :=
  [ (str "role", PyStr (str "assistant")) ].

(** More stub clients. *)
Definition all_good : list reply :=
  [says "bullet facts"; says "a draft paragraph"; says "a polished paragraph"].

Definition down_at_once : list reply := [].
Definition down_at_writing : list reply := [says "bullet facts"].
Definition down_at_editing : list reply :=
  [says "bullet facts"; says "a draft paragraph"].

(** * Theorems *)

#[local] Arguments Ascii.eqb : simpl never.

(** ** Strings *)

Section StringFacts.

Implicit Types s p t : pystr.

Lemma startswith_spec s p :
  startswith s p = true <-> exists r, s = p ++ r.
Proof.
  revert s; induction p as [|a p IH]; intros s; simpl.
  - split; [exists s; reflexivity | reflexivity].
  - destruct s as [|b s]; simpl.
    + split; [discriminate | intros [r H]; discriminate].
    + rewrite andb_true_iff, Ascii.eqb_eq, IH. split.
      * intros [-> [r ->]]. exists r. reflexivity.
      * intros [r H]. injection H as -> ->. split; [reflexivity | eauto].
Qed.

Lemma startswith_app s p : startswith (p ++ s) p = true.
Proof. apply startswith_spec. eauto. Qed.

Lemma startswith_app_r s p t :
  startswith s p = true -> startswith (s ++ t) p = true.
Proof.
  rewrite !startswith_spec. intros [r ->]. exists (r ++ t).
  now rewrite app_assoc.
Qed.

Lemma startswith_skipn s p :
  startswith s p = true -> s = p ++ skipn (List.length p) s.
Proof.
  intros H. apply startswith_spec in H. destruct H as [r ->].
  now rewrite skipn_app, skipn_all, Nat.sub_diag.
Qed.

Lemma contains_spec p s :
  contains p s = true <-> exists a b, s = a ++ p ++ b.
Proof.
  induction s as [|c s IH]; simpl.
  - rewrite orb_false_r, startswith_spec. split.
    + intros [r H]. exists [], r. exact H.
    + intros [a [b H]]. destruct a; [eauto | discriminate].
  - rewrite orb_true_iff, startswith_spec, IH. split.
    + intros [[r H] | [a [b H]]].
      * exists [], r. exact H.
      * exists (c :: a), b. now rewrite H.
    + intros [a [b H]]. destruct a as [|x a]; simpl in H.
      * left. eauto.
      * right. injection H as _ ->. eauto.
Qed.

Lemma contains_app_inv p a b :
  contains p (a ++ b) = false -> contains p a = false /\ contains p b = false.
Proof.
  intros H. split.
  - destruct (contains p a) eqn:E; [|reflexivity].
    apply contains_spec in E. destruct E as [x [y ->]].
    rewrite <- H. symmetry. apply contains_spec.
    exists x, (y ++ b). now rewrite <- !app_assoc.
  - destruct (contains p b) eqn:E; [|reflexivity].
    apply contains_spec in E. destruct E as [x [y ->]].
    rewrite <- H. symmetry. apply contains_spec.
    exists (a ++ x), y. now rewrite <- !app_assoc.
Qed.


(** [lstrip] splits off a run of blanks. *)
Lemma lstrip_split s :
  exists w, s = w ++ lstrip s /\ forallb is_space w = true.
Proof.
  induction s as [|c s [w [H1 H2]]]; simpl.
  - exists []. auto.
  - destruct (is_space c) eqn:E.
    + exists (c :: w). simpl. rewrite E, H2. now rewrite <- H1.
    + exists []. auto.
Qed.

Lemma lstrip_head s c t : lstrip s = c :: t -> is_space c = false.
Proof.
  induction s as [|x s IH]; simpl; [discriminate|].
  destruct (is_space x) eqn:E; [exact IH|].
  intros H. injection H as <- _. exact E.
Qed.

Lemma lstrip_fixed s :
  match s with [] => True | c :: _ => is_space c = false end ->
  lstrip s = s.
Proof. destruct s as [|c s]; simpl; [reflexivity|]. now intros ->. Qed.

Lemma lstrip_length s : (List.length (lstrip s) <= List.length s)%nat.
Proof.
  destruct (lstrip_split s) as [w [H _]]. rewrite H at 2.
  rewrite length_app. lia.
Qed.

Lemma rstrip_split s :
  exists w, s = rstrip s ++ w /\ forallb is_space w = true.
Proof.
  unfold rstrip. destruct (lstrip_split (rev s)) as [w [H1 H2]].
  exists (rev w). split.
  - rewrite <- rev_app_distr, <- H1. now rewrite rev_involutive.
  - rewrite forallb_forall in *. intros x Hx. apply H2. now apply in_rev.
Qed.

Lemma rstrip_length s : (List.length (rstrip s) <= List.length s)%nat.
Proof.
  destruct (rstrip_split s) as [w [H _]]. rewrite H at 2.
  rewrite length_app. lia.
Qed.

Lemma strip_length s : (List.length (strip s) <= List.length s)%nat.
Proof.
  unfold strip. pose proof (rstrip_length (lstrip s)).
  pose proof (lstrip_length s). lia.
Qed.

(** A stripped string has no blank at either end, so stripping it again
    changes nothing. *)
Lemma strip_head s c t : strip s = c :: t -> is_space c = false.
Proof.
  unfold strip. intros H.
  destruct (rstrip_split (lstrip s)) as [w [Hw _]].
  rewrite H in Hw. simpl in Hw. eapply lstrip_head. exact Hw.
Qed.

Lemma lstrip_strip s : lstrip (strip s) = strip s.
Proof.
  apply lstrip_fixed. destruct (strip s) eqn:E; [exact I|].
  eapply strip_head. exact E.
Qed.

Lemma strip_strip s : strip (strip s) = strip s.
Proof.
  unfold strip at 1. rewrite lstrip_strip.
  unfold strip, rstrip. rewrite rev_involutive.
  f_equal. apply lstrip_fixed.
  destruct (lstrip (rev (lstrip s))) eqn:E; [exact I|].
  eapply lstrip_head. exact E.
Qed.

Lemma contains_lstrip p s :
  contains p s = false -> contains p (lstrip s) = false.
Proof.
  destruct (lstrip_split s) as [w [H _]]. rewrite H at 1.
  intros C. now apply contains_app_inv in C.
Qed.

Lemma contains_strip p s :
  contains p s = false -> contains p (strip s) = false.
Proof.
  intros C. apply contains_lstrip in C. unfold strip.
  destruct (rstrip_split (lstrip s)) as [w [H _]]. rewrite H in C.
  now apply contains_app_inv in C.
Qed.

End StringFacts.

(** ** The matcher on the two patterns of [clean_agent_output] *)

Section MatcherFacts.

Import Re.

Implicit Types s t : pystr.

(** A run of literals matches exactly the strings that start with it. *)
Lemma rmatch_lits (m : pystr) (q : regex) : forall b s,
  rmatch (map Lit m ++ q) b s =
  if startswith s m
  then rmatch q (match m with [] => b | _ :: _ => false end)
         (skipn (List.length m) s)
  else None.
Proof.
  induction m as [|a m IH]; intros b s; simpl.
  - reflexivity.
  - destruct s as [|x s]; [reflexivity|].
    destruct (Ascii.eqb a x); simpl; [|reflexivity].
    rewrite IH. destruct m; reflexivity.
Qed.

(** Greedy blanks before something that cannot start with a blank: the
    only way through is to take all of them. *)
Lemma greedy_blanks (k : bool -> pystr -> option pystr) :
  (forall b c s, is_space c = true -> k b (c :: s) = None) ->
  (forall b s, k b s = k false s) ->
  forall s b, greedy is_space k b s = k false (lstrip s).
Proof.
  intros Hblank Hbos. induction s as [|c s IH]; intros b; simpl.
  - apply Hbos.
  - destruct (is_space c) eqn:E.
    + rewrite IH. destruct (k false (lstrip s)) eqn:K; [reflexivity|].
      now apply Hblank.
    + apply Hbos.
Qed.

(** Lazy [.*?] before a newline stops at the first newline. *)
Lemma lazy_newline : forall s b,
  lazy any (rmatch [Lit "010"%char]) b s = after_newline s.
Proof.
  induction s as [|c s IH]; intros b; simpl.
  - reflexivity.
  - destruct (Ascii.eqb "010"%char c); [reflexivity|]. apply IH.
Qed.

Lemma after_newline_length s r :
  after_newline s = Some r -> (List.length r < List.length s)%nat.
Proof.
  revert r; induction s as [|c s IH]; intros r; simpl; [discriminate|].
  destruct (Ascii.eqb "010"%char c).
  - intros H. injection H as ->. lia.
  - intros H. apply IH in H. lia.
Qed.

Lemma blank_not_marker c : is_space c = true -> Ascii.eqb ">"%char c = false.
Proof.
  intros H. destruct (Ascii.eqb_spec ">"%char c) as [<-|]; [|reflexivity].
  discriminate H.
Qed.

(** The first pattern at one position. *)
Lemma rmatch_leading_banner b s :
  rmatch leading_banner b s =
  if b then
    if startswith (lstrip s) marker
    then after_newline (skipn (List.length marker) (lstrip s))
    else None
  else None.
Proof.
  change leading_banner with
    (Bol :: Star is_space
       :: (map Lit marker ++ [Lazy any; Lit "010"%char])).
  cbn [rmatch]. destruct b; [|reflexivity].
  rewrite greedy_blanks.
  - rewrite rmatch_lits. cbn [rmatch].
    destruct (startswith (lstrip s) marker); [|reflexivity].
    apply lazy_newline.
  - intros b c t H. rewrite rmatch_lits.
    unfold marker, str. simpl. now rewrite (blank_not_marker c H).
  - intros b t. now rewrite !rmatch_lits.
Qed.

(** Blanks up to the end: the match, if any, takes the whole rest. *)
Lemma greedy_blanks_eol : forall s b,
  greedy is_space (rmatch [Eol]) b s = Some [] \/
  greedy is_space (rmatch [Eol]) b s = None.
Proof.
  induction s as [|c s IH]; intros b.
  - left. reflexivity.
  - cbn [greedy].
    assert (E : rmatch [Eol] b (c :: s) = None \/
                (s = [] /\ is_space c = true)).
    { simpl. destruct s as [|d s]; [|left; reflexivity].
      destruct (Ascii.eqb_spec c "010"%char) as [->|]; [right|left]; auto. }
    destruct (is_space c) eqn:Ec.
    + destruct (IH false) as [H | H]; rewrite H; [left; reflexivity|].
      destruct E as [-> | [-> _]]; [right; reflexivity|].
      discriminate H.
    + destruct E as [-> | [_ E]]; [right; reflexivity | discriminate].
Qed.

(** Lazy [.*?] before [\s*$] always succeeds and eats the rest. *)
Lemma lazy_to_the_end : forall s b,
  lazy any (rmatch [Star is_space; Eol]) b s = Some [].
Proof.
  induction s as [|c s IH]; intros b.
  - reflexivity.
  - cbn [lazy].
    change (rmatch [Star is_space; Eol] b (c :: s))
      with (greedy is_space (rmatch [Eol]) b (c :: s)).
    destruct (greedy_blanks_eol (c :: s) b) as [-> | ->]; [reflexivity|].
    cbn [any]. apply IH.
Qed.

(** The second pattern at one position. *)
Lemma rmatch_trailing_banner b s :
  rmatch trailing_banner b s =
  if startswith s banner then Some [] else None.
Proof.
  change trailing_banner with
    (map Lit banner ++ [Lazy any; Star is_space; Eol]).
  rewrite rmatch_lits.
  destruct (startswith s banner); [|reflexivity].
  apply lazy_to_the_end.
Qed.

Lemma sub_from_no_match (p : regex) :
  (forall s, rmatch p false s = None) ->
  forall fuel s, sub_from fuel p false s = s.
Proof.
  intros H. induction fuel as [|fuel IH]; intros s; simpl; [reflexivity|].
  rewrite H. destruct s; [reflexivity|]. now rewrite IH.
Qed.

(** [re.sub(r'^\s*>>>>>>>> .*?\n', '', s, flags=re.DOTALL)] *)
Lemma sub_leading_banner s :
  sub_empty leading_banner s = drop_leading_banner s.
Proof.
  unfold sub_empty, drop_leading_banner. cbn [sub_from].
  rewrite rmatch_leading_banner.
  assert (N : forall fuel t, sub_from fuel leading_banner false t = t).
  { apply sub_from_no_match. intros t. now rewrite rmatch_leading_banner. }
  destruct (startswith (lstrip s) marker).
  - destruct (after_newline _) as [r|] eqn:E.
    + apply after_newline_length in E. rewrite length_skipn in E.
      pose proof (lstrip_length s).
      replace (List.length r <? List.length s)%nat with true
        by (symmetry; apply Nat.ltb_lt; lia).
      apply N.
    + destruct s; [reflexivity|]. now rewrite N.
  - destruct s; [reflexivity|]. now rewrite N.
Qed.

Lemma sub_from_trailing_banner : forall s fuel b,
  (List.length s < fuel)%nat ->
  sub_from fuel trailing_banner b s = cut_trailing_banner s.
Proof.
  induction s as [|c s IH]; intros fuel b Hf;
    (destruct fuel as [|fuel]; [inversion Hf|]).
  - reflexivity.
  - cbn [sub_from]. rewrite rmatch_trailing_banner.
    unfold cut_trailing_banner; fold cut_trailing_banner.
    destruct (startswith (c :: s) banner).
    + simpl. destruct fuel; reflexivity.
    + f_equal. apply IH. simpl in Hf. lia.
Qed.

(** [re.sub(r'\n>>>>>>>> .*?\s*$', '', s, flags=re.DOTALL)] *)
Lemma sub_trailing_banner s :
  sub_empty trailing_banner s = cut_trailing_banner s.
Proof. apply sub_from_trailing_banner. lia. Qed.

(** More fuel changes nothing, whatever the pattern: every step of the
    scan shortens what is left, so it is over after [length s] steps. *)
Lemma sub_from_fuel (p : regex) : forall fuel fuel' b s,
  (List.length s < fuel)%nat -> (List.length s < fuel')%nat ->
  sub_from fuel p b s = sub_from fuel' p b s.
Proof.
  induction fuel as [|fuel IH]; intros fuel' b s H H'; [inversion H|].
  destruct fuel' as [|fuel']; [inversion H'|]. cbn [sub_from].
  destruct (rmatch p b s) as [r|].
  - destruct (List.length r <? List.length s)%nat eqn:L.
    + apply Nat.ltb_lt in L. apply IH; lia.
    + destruct s as [|c s]; [reflexivity|]. simpl in H, H'.
      f_equal. apply IH; lia.
  - destruct s as [|c s]; [reflexivity|]. simpl in H, H'.
    f_equal. apply IH; lia.
Qed.

Lemma sub_empty_fuel (p : regex) s fuel :
  (List.length s < fuel)%nat -> sub_from fuel p true s = sub_empty p s.
Proof. intros H. apply sub_from_fuel; [exact H | lia]. Qed.

Lemma clean_agent_output_eq s :
  clean_agent_output s = strip (cut_trailing_banner (drop_leading_banner s)).
Proof.
  unfold clean_agent_output.
  now rewrite sub_leading_banner, sub_trailing_banner.
Qed.

End MatcherFacts.

(** ** The sanitizer *)

Section SanitizerFacts.

Implicit Types s t : pystr.

Lemma cut_unfold s :
  cut_trailing_banner s =
  if startswith s banner then []
  else match s with
       | [] => []
       | c :: s' => c :: cut_trailing_banner s'
       end.
Proof. destruct s; reflexivity. Qed.

(** [cut_trailing_banner] keeps the part before the first banner. *)
Lemma cut_split s :
  exists rest,
    s = cut_trailing_banner s ++ rest
    /\ (contains banner s = true -> startswith rest banner = true)
    /\ (contains banner s = false -> rest = []).
Proof.
  induction s as [|c s [rest [H1 [H2 H3]]]].
  - exists []. repeat split; auto.
  - rewrite cut_unfold. cbn [contains].
    destruct (startswith (c :: s) banner) eqn:E.
    + exists (c :: s). repeat split; auto; discriminate.
    + exists rest. rewrite orb_false_l. repeat split; auto.
      simpl. now rewrite <- H1.
Qed.

Lemma cut_length s :
  (List.length (cut_trailing_banner s) <= List.length s)%nat.
Proof.
  destruct (cut_split s) as [rest [H _]]. rewrite H at 2.
  rewrite length_app. lia.
Qed.

Lemma cut_no_banner s : contains banner (cut_trailing_banner s) = false.
Proof.
  induction s as [|c s IH]; [reflexivity|].
  rewrite cut_unfold. destruct (startswith (c :: s) banner) eqn:E.
  - reflexivity.
  - cbn [contains]. rewrite IH, orb_false_r.
    destruct (startswith (c :: cut_trailing_banner s) banner) eqn:F;
      [|reflexivity].
    destruct (cut_split s) as [rest [H _]].
    rewrite <- E, H. symmetry.
    change (c :: cut_trailing_banner s ++ rest)
      with ((c :: cut_trailing_banner s) ++ rest).
    now apply startswith_app_r.
Qed.

Lemma cut_fixed s : contains banner s = false -> cut_trailing_banner s = s.
Proof.
  intros C. destruct (cut_split s) as [rest [H [_ H3]]].
  rewrite (H3 C), app_nil_r in H. now symmetry.
Qed.

Lemma drop_leading_cases s :
  (banner_head s = false /\ drop_leading_banner s = s) \/
  (banner_head s = true /\
   (List.length (drop_leading_banner s) < List.length s)%nat).
Proof.
  unfold banner_head, drop_leading_banner.
  destruct (startswith (lstrip s) marker); [|left; auto].
  destruct (after_newline _) as [r|] eqn:E; [right|left; auto].
  split; [reflexivity|].
  apply after_newline_length in E. rewrite length_skipn in E.
  pose proof (lstrip_length s). lia.
Qed.



Lemma lstrip_blanks w t :
  forallb is_space w = true -> lstrip (w ++ t) = lstrip t.
Proof.
  induction w as [|c w IH]; simpl; [reflexivity|].
  intros H. apply andb_true_iff in H. destruct H as [-> H]. auto.
Qed.

Lemma after_newline_line line rest :
  ~ In "010"%char line ->
  after_newline (line ++ str nl ++ rest) = Some rest.
Proof.
  induction line as [|c line IH]; intros H.
  - reflexivity.
  - simpl. destruct (Ascii.eqb_spec "010"%char c) as [<-|_].
    + exfalso. apply H. now left.
    + apply IH. intros I. apply H. now right.
Qed.

(** One leading banner line, blanks before it included, is removed. *)
Lemma drop_leading_banner_line w line rest :
  forallb is_space w = true ->
  ~ In "010"%char line ->
  drop_leading_banner (w ++ marker ++ line ++ str nl ++ rest) = rest.
Proof.
  intros Hw Hl. unfold drop_leading_banner.
  rewrite lstrip_blanks by exact Hw.
  replace (lstrip (marker ++ line ++ str nl ++ rest))
    with (marker ++ line ++ str nl ++ rest) by reflexivity.
  rewrite startswith_app, skipn_app, skipn_all, Nat.sub_diag, skipn_O.
  rewrite app_nil_l. now rewrite after_newline_line.
Qed.

(** The sanitized text has no banner inside and no blank around it. *)
Lemma clean_fixed_tail s :
  let t := clean_agent_output s in
  cut_trailing_banner t = t /\ strip t = t.
Proof.
  cbv zeta. rewrite clean_agent_output_eq. split.
  - apply cut_fixed, contains_strip, cut_no_banner.
  - apply strip_strip.
Qed.

End SanitizerFacts.

(** *** Marker removal *)



(** The embedding on a few more inputs: blanks before the banner, several
    banners after the content, a banner that no newline closes. *)
Example clean_blanks_and_banners :
  clean_agent_output
    (str " " ++ str nl ++ str ">>>>>>>> a" ++ str nl ++ str "foo" ++ str nl
     ++ str ">>>>>>>> x y" ++ str nl ++ str "more" ++ str nl
     ++ str ">>>>>>>> z " ++ str nl)
  = str "foo".
Proof. vm_compute. reflexivity. Qed.

Example clean_open_banner :
  clean_agent_output (str ">>>>>>>> a") = str ">>>>>>>> a".
Proof. vm_compute. reflexivity. Qed.

Example clean_inner_marker :
  clean_agent_output
    (str "  hello >>>>>>>> a" ++ str nl ++ str ">>>>>>>> b" ++ str nl
     ++ str "X  ")
  = str "hello >>>>>>>> a".
Proof. vm_compute. reflexivity. Qed.

(** *** Idempotence *)

(** Two consecutive banner lines: one pass removes the first only, the
    second pass removes the other. *)
Lemma sanitizer_not_idempotent :
  clean_agent_output two_banners = str ">>>>>>>> b" ++ str nl ++ str "X"
  /\ clean_agent_output (clean_agent_output two_banners) = str "X"
  /\ clean_agent_output (clean_agent_output two_banners)
     <> clean_agent_output two_banners.
Proof. vm_compute. repeat split. discriminate. Qed.

(** C3, as the code has it.  A second pass changes the sanitized text
    exactly when that text itself starts with a banner line closed by a
    newline; in every other case the sanitizer is idempotent. *)
Theorem sanitizer_idempotent_iff (s : pystr) :
  clean_agent_output (clean_agent_output s) = clean_agent_output s
  <-> banner_head (clean_agent_output s) = false.
Proof.
  destruct (clean_fixed_tail s) as [Hcut Hstrip].
  set (t := clean_agent_output s) in *.
  rewrite (clean_agent_output_eq t).
  destruct (drop_leading_cases t) as [[Hh Hd] | [Hh Hd]]; rewrite Hh.
  - rewrite Hd, Hcut, Hstrip. split; reflexivity.
  - split; [|discriminate]. intros E. exfalso.
    apply (f_equal (@List.length ascii)) in E.
    pose proof (strip_length (cut_trailing_banner (drop_leading_banner t))).
    pose proof (cut_length (drop_leading_banner t)). lia.
Qed.

Lemma sanitizer_idempotent_iff_witness :
  clean_agent_output (clean_agent_output banner_sample)
  = clean_agent_output banner_sample.
Proof. exact (proj2 (sanitizer_idempotent_iff banner_sample) eq_refl). Defined.

(** ** Runs of the page *)

Section ScriptFacts.

Variable St : Type.
Variable service : St -> chat_call -> reply * St.

Implicit Types (s : St) (r : option ChatResult).

Lemma editing_stage_run draft s :
  editing_stage service draft s =
  match service s (editing_call draft) with
  | (Returns r, s') => (Done tt, s', editing_events draft r)
  | (Raises, s') =>
      (Raised, s', [StInfo editor_info; call_event (editing_call draft)])
  end.
Proof.
  unfold editing_stage, initiate_chat, bind, emit, ret, editing_events.
  change (service s _) with (service s (editing_call draft)).
  destruct (service s (editing_call draft)) as [[|r] s']; [reflexivity|].
  change (clean_agent_output (summary_or r final_placeholder))
    with (final_blog_post r).
  destruct (final_ok (final_blog_post r)); reflexivity.
Qed.

Lemma writing_stage_run rc s :
  writing_stage service rc s =
  match service s (writing_call rc) with
  | (Returns r, s') =>
      if draft_invalid (blog_post_draft r)
      then (Done tt, s',
            [StInfo writer_info; call_event (writing_call rc);
             StError writing_error])
      else
        match editing_stage service (blog_post_draft r) s' with
        | (o, s'', t) =>
            (o, s'', StInfo writer_info :: call_event (writing_call rc) :: t)
        end
  | (Raises, s') =>
      (Raised, s', [StInfo writer_info; call_event (writing_call rc)])
  end.
Proof.
  unfold writing_stage, initiate_chat, bind, emit, ret.
  change (service s _) with (service s (writing_call rc)).
  destruct (service s (writing_call rc)) as [[|r] s']; [reflexivity|].
  change (clean_agent_output (summary_or r draft_placeholder))
    with (blog_post_draft r).
  destruct (draft_invalid (blog_post_draft r)); [reflexivity|].
  destruct (editing_stage service (blog_post_draft r) s') as [[o s''] t].
  reflexivity.
Qed.

Lemma research_stage_run bn s :
  research_stage service bn s =
  match service s (research_call bn) with
  | (Returns r, s') =>
      if research_invalid (research_content r)
      then (Done tt, s',
            [call_event (research_call bn); StError research_error])
      else
        match writing_stage service (research_content r) s' with
        | (o, s'', t) => (o, s'', call_event (research_call bn) :: t)
        end
  | (Raises, s') => (Raised, s', [call_event (research_call bn)])
  end.
Proof.
  unfold research_stage, initiate_chat, bind, emit, ret.
  change (service s _) with (service s (research_call bn)).
  destruct (service s (research_call bn)) as [[|r] s']; [reflexivity|].
  change (clean_agent_output (summary_or r research_placeholder))
    with (research_content r).
  destruct (research_invalid (research_content r)); [reflexivity|].
  destruct (writing_stage service (research_content r) s') as [[o s''] t].
  reflexivity.
Qed.

Lemma page_run bn clicked s :
  page service bn clicked s =
  if clicked then
    if truthy bn then
      match research_stage service bn s with
      | (o, s', t) =>
          (o, s', page_head ++ SpinnerEnter spinner_text :: t ++ [SpinnerExit])
      end
    else (Done tt, s, page_head ++ [StWarning topic_warning])
  else (Done tt, s, page_head).
Proof.
  unfold page, with_spinner, bind, emit, ret.
  destruct clicked; [|reflexivity].
  destruct (truthy bn); [|reflexivity].
  destruct (research_stage service bn s) as [[o s'] t]. reflexivity.
Qed.

(** The three ways a run can end with a stage's verdict. *)

Lemma run_research_rejected bn s0 s1 r1 :
  truthy bn = true ->
  service s0 (research_call bn) = (Returns r1, s1) ->
  research_invalid (research_content r1) = true ->
  page service bn true s0 =
  (Done tt, s1,
   page_head ++ [SpinnerEnter spinner_text; call_event (research_call bn);
                 StError research_error; SpinnerExit]).
Proof.
  intros Hb H1 V1. now rewrite page_run, Hb, research_stage_run, H1, V1.
Qed.

Lemma run_writing_rejected bn s0 s1 r1 s2 r2 :
  truthy bn = true ->
  service s0 (research_call bn) = (Returns r1, s1) ->
  research_invalid (research_content r1) = false ->
  service s1 (writing_call (research_content r1)) = (Returns r2, s2) ->
  draft_invalid (blog_post_draft r2) = true ->
  page service bn true s0 =
  (Done tt, s2,
   page_head ++ [SpinnerEnter spinner_text; call_event (research_call bn);
                 StInfo writer_info;
                 call_event (writing_call (research_content r1));
                 StError writing_error; SpinnerExit]).
Proof.
  intros Hb H1 V1 H2 V2.
  now rewrite page_run, Hb, research_stage_run, H1, V1,
    writing_stage_run, H2, V2.
Qed.

Lemma run_editing bn s0 s1 r1 s2 r2 s3 r3 :
  truthy bn = true ->
  service s0 (research_call bn) = (Returns r1, s1) ->
  research_invalid (research_content r1) = false ->
  service s1 (writing_call (research_content r1)) = (Returns r2, s2) ->
  draft_invalid (blog_post_draft r2) = false ->
  service s2 (editing_call (blog_post_draft r2)) = (Returns r3, s3) ->
  page service bn true s0 =
  (Done tt, s3,
   page_head ++ SpinnerEnter spinner_text :: call_event (research_call bn)
     :: StInfo writer_info :: call_event (writing_call (research_content r1))
     :: editing_events (blog_post_draft r2) r3 ++ [SpinnerExit]).
Proof.
  intros Hb H1 V1 H2 V2 H3.
  now rewrite page_run, Hb, research_stage_run, H1, V1,
    writing_stage_run, H2, V2, editing_stage_run, H3.
Qed.

End ScriptFacts.

(** ** The validator *)

Lemma validate_researcher t :
  is_rejected (validate Researcher t) = research_invalid t.
Proof. unfold validate. now destruct (research_invalid t). Qed.

Lemma validate_writer t :
  is_rejected (validate Writer t) = draft_invalid t.
Proof. unfold validate. now destruct (draft_invalid t). Qed.

Lemma validate_editor t :
  is_rejected (validate Editor t) = negb (final_ok t).
Proof. unfold validate. now destruct (final_ok t). Qed.

Lemma summary_or_no_content r placeholder :
  no_content r = true -> summary_or r placeholder = placeholder.
Proof.
  unfold no_content, summary_or. destruct r as [[[s|]]|]; try reflexivity.
  simpl. destruct (truthy s); [discriminate | reflexivity].
Qed.

(** ** The pipeline *)

(** C1.  When the research stage's cleaned output is rejected the run ends
    with the research error and there is no call to the Writer or to the
    Editor; when the writing stage's cleaned output is rejected the run
    ends with the writing error and there is no call to the Editor. *)
Theorem pipeline_short_circuit
    (St : Type) (service : St -> chat_call -> reply * St)
    (blog_name : pystr) (s0 s1 : St) (r1 : option ChatResult) :
  truthy blog_name = true ->
  service s0 (research_call blog_name) = (Returns r1, s1) ->
  (is_rejected (validate Researcher (research_content r1)) = true ->
   page service blog_name true s0 =
     (Done tt, s1,
      page_head ++ [SpinnerEnter spinner_text;
                    call_event (research_call blog_name);
                    StError research_error; SpinnerExit])
   /\ calls_to Writer (trace service blog_name true s0) = 0
   /\ calls_to Editor (trace service blog_name true s0) = 0)
  /\
  (forall r2 s2,
   is_rejected (validate Researcher (research_content r1)) = false ->
   service s1 (writing_call (research_content r1)) = (Returns r2, s2) ->
   is_rejected (validate Writer (blog_post_draft r2)) = true ->
   page service blog_name true s0 =
     (Done tt, s2,
      page_head ++ [SpinnerEnter spinner_text;
                    call_event (research_call blog_name);
                    StInfo writer_info;
                    call_event (writing_call (research_content r1));
                    StError writing_error; SpinnerExit])
   /\ calls_to Editor (trace service blog_name true s0) = 0).
Proof.
  intros Hb H1. split.
  - rewrite validate_researcher. intros V1.
    pose proof (run_research_rejected service blog_name s0 Hb H1 V1) as R.
    unfold trace. rewrite R. repeat split.
  - intros r2 s2. rewrite validate_researcher, validate_writer.
    intros V1 H2 V2.
    pose proof (run_writing_rejected service blog_name s0 Hb H1 V1 H2 V2) as R.
    unfold trace. rewrite R. repeat split.
Qed.

Lemma pipeline_short_circuit_witness :
  (calls_to Writer (trace scripted topic true filler_research) = 0
   /\ calls_to Editor (trace scripted topic true filler_research) = 0)
  /\ calls_to Editor (trace scripted topic true refused_draft) = 0.
Proof.
  split.
  - exact (proj2 (proj1 (pipeline_short_circuit scripted topic
                           filler_research eq_refl eq_refl) eq_refl)).
  - exact (proj2 (proj2 (pipeline_short_circuit scripted topic
                           refused_draft eq_refl eq_refl)
                    _ _ eq_refl eq_refl eq_refl)).
Defined.

(** *** What is put on display *)

(** The editor's cleaned output is written under the final header before
    it is checked: here it is meta-commentary, it is on display, and only
    afterwards the editing error is shown. *)
Lemma rejected_final_is_displayed :
  written (trace scripted topic true meta_final)
    = [str "I will now proceed to polish the post."]
  /\ In (StSubheader final_header) (trace scripted topic true meta_final)
  /\ validate Editor (str "I will now proceed to polish the post.")
     = Rejected editing_error
  /\ errors (trace scripted topic true meta_final) = [editing_error].
Proof.
  repeat split; try reflexivity.
  unfold meta_final. vm_compute. tauto.
Qed.

(** C2, as the code has it.  A rejected research or writing result is
    never shown: the run consists of the page head, the spinner, the
    calls made so far (with the writer's progress note before the second)
    and that stage's error message, and nothing else.  The editing stage
    writes its cleaned output under the final header in every case and
    validates afterwards: the header and the text are followed by the
    success message when the text is accepted and by the editing error
    when it is rejected. *)
Theorem display_policy
    (St : Type) (service : St -> chat_call -> reply * St)
    (blog_name : pystr) (s0 s1 : St) (r1 : option ChatResult) :
  truthy blog_name = true ->
  service s0 (research_call blog_name) = (Returns r1, s1) ->
  (is_rejected (validate Researcher (research_content r1)) = true ->
   page service blog_name true s0 =
     (Done tt, s1,
      page_head ++ [SpinnerEnter spinner_text;
                    call_event (research_call blog_name);
                    StError research_error; SpinnerExit])
   /\ written (trace service blog_name true s0) = []
   /\ errors (trace service blog_name true s0) = [research_error]
   /\ successes (trace service blog_name true s0) = [])
  /\
  (forall r2 s2,
   is_rejected (validate Researcher (research_content r1)) = false ->
   service s1 (writing_call (research_content r1)) = (Returns r2, s2) ->
   (is_rejected (validate Writer (blog_post_draft r2)) = true ->
    page service blog_name true s0 =
      (Done tt, s2,
       page_head ++ [SpinnerEnter spinner_text;
                     call_event (research_call blog_name);
                     StInfo writer_info;
                     call_event (writing_call (research_content r1));
                     StError writing_error; SpinnerExit])
    /\ written (trace service blog_name true s0) = []
    /\ errors (trace service blog_name true s0) = [writing_error]
    /\ successes (trace service blog_name true s0) = [])
   /\
   (forall r3 s3,
    is_rejected (validate Writer (blog_post_draft r2)) = false ->
    service s2 (editing_call (blog_post_draft r2)) = (Returns r3, s3) ->
    page service blog_name true s0 =
      (Done tt, s3,
       page_head ++ [SpinnerEnter spinner_text;
                     call_event (research_call blog_name);
                     StInfo writer_info;
                     call_event (writing_call (research_content r1));
                     StInfo editor_info;
                     call_event (editing_call (blog_post_draft r2));
                     StSubheader final_header;
                     StWrite (final_blog_post r3);
                     if is_rejected (validate Editor (final_blog_post r3))
                     then StError editing_error
                     else StSuccess success_text;
                     SpinnerExit])
    /\ written (trace service blog_name true s0) = [final_blog_post r3]
    /\ (is_rejected (validate Editor (final_blog_post r3)) = false ->
        successes (trace service blog_name true s0) = [success_text]
        /\ errors (trace service blog_name true s0) = [])
    /\ (is_rejected (validate Editor (final_blog_post r3)) = true ->
        successes (trace service blog_name true s0) = []
        /\ errors (trace service blog_name true s0) = [editing_error]))).
Proof.
  intros Hb H1. split.
  - rewrite validate_researcher. intros V1. unfold trace.
    rewrite (run_research_rejected service blog_name s0 Hb H1 V1).
    repeat split.
  - intros r2 s2. rewrite validate_researcher. intros V1 H2. split.
    + rewrite validate_writer. intros V2. unfold trace.
      rewrite (run_writing_rejected service blog_name s0 Hb H1 V1 H2 V2).
      repeat split.
    + intros r3 s3. rewrite validate_writer, validate_editor.
      intros V2 H3. unfold trace.
      rewrite (run_editing service blog_name s0 Hb H1 V1 H2 V2 H3).
      unfold editing_events.
      destruct (final_ok (final_blog_post r3));
        repeat split; intros; try discriminate; reflexivity.
Qed.

Lemma display_policy_witness :
  written (trace scripted topic true filler_research) = []
  /\ written (trace scripted topic true refused_draft) = []
  /\ written (trace scripted topic true meta_final)
     = [str "I will now proceed to polish the post."]
  /\ errors (trace scripted topic true meta_final) = [editing_error].
Proof.
  pose (A := display_policy scripted topic filler_research eq_refl eq_refl).
  pose (B := proj2 (display_policy scripted topic refused_draft
                      eq_refl eq_refl) _ _ eq_refl eq_refl).
  pose (C := proj2 (proj2 (display_policy scripted topic meta_final
                             eq_refl eq_refl) _ _ eq_refl eq_refl)
               _ _ eq_refl eq_refl).
  split; [exact (proj1 (proj2 (proj1 A eq_refl)))|].
  split; [exact (proj1 (proj2 (proj1 B eq_refl)))|].
  split; [exact (proj1 (proj2 C))|].
  exact (proj2 (proj2 (proj2 (proj2 C)) eq_refl)).
Defined.

(** *** Empty completions *)

(** C7.  A stage whose call returns no content (no result, no summary or
    an empty summary) continues with its placeholder, the stage's check
    rejects the placeholder, the stage's error is shown and no later
    stage is called. *)
Theorem empty_completion_fails
    (St : Type) (service : St -> chat_call -> reply * St)
    (blog_name : pystr) (s0 s1 : St) (r1 : option ChatResult) :
  truthy blog_name = true ->
  service s0 (research_call blog_name) = (Returns r1, s1) ->
  (no_content r1 = true ->
   research_content r1 = research_placeholder
   /\ validate Researcher (research_content r1) = Rejected research_error
   /\ errors (trace service blog_name true s0) = [research_error]
   /\ successes (trace service blog_name true s0) = []
   /\ calls_to Writer (trace service blog_name true s0) = 0
   /\ calls_to Editor (trace service blog_name true s0) = 0)
  /\
  (forall r2 s2,
   is_rejected (validate Researcher (research_content r1)) = false ->
   service s1 (writing_call (research_content r1)) = (Returns r2, s2) ->
   (no_content r2 = true ->
    blog_post_draft r2 = draft_placeholder
    /\ validate Writer (blog_post_draft r2) = Rejected writing_error
    /\ errors (trace service blog_name true s0) = [writing_error]
    /\ successes (trace service blog_name true s0) = []
    /\ calls_to Editor (trace service blog_name true s0) = 0)
   /\
   (forall r3 s3,
    is_rejected (validate Writer (blog_post_draft r2)) = false ->
    service s2 (editing_call (blog_post_draft r2)) = (Returns r3, s3) ->
    no_content r3 = true ->
    final_blog_post r3 = final_placeholder
    /\ validate Editor (final_blog_post r3) = Rejected editing_error
    /\ errors (trace service blog_name true s0) = [editing_error]
    /\ successes (trace service blog_name true s0) = []
    /\ List.length (filter is_call (trace service blog_name true s0)) = 3)).
Proof.
  intros Hb H1. split.
  - intros N1.
    assert (E : research_content r1 = research_placeholder).
    { unfold research_content. now rewrite summary_or_no_content. }
    assert (V1 : research_invalid (research_content r1) = true)
      by now rewrite E.
    unfold trace.
    rewrite (run_research_rejected service blog_name s0 Hb H1 V1), E.
    repeat split.
  - intros r2 s2. rewrite validate_researcher. intros V1 H2. split.
    + intros N2.
      assert (E : blog_post_draft r2 = draft_placeholder).
      { unfold blog_post_draft. now rewrite summary_or_no_content. }
      assert (V2 : draft_invalid (blog_post_draft r2) = true)
        by now rewrite E.
      unfold trace.
      rewrite (run_writing_rejected service blog_name s0 Hb H1 V1 H2 V2), E.
      repeat split.
    + intros r3 s3. rewrite validate_writer. intros V2 H3 N3.
      assert (E : final_blog_post r3 = final_placeholder).
      { unfold final_blog_post. now rewrite summary_or_no_content. }
      unfold trace.
      rewrite (run_editing service blog_name s0 Hb H1 V1 H2 V2 H3).
      unfold editing_events. rewrite E. repeat split.
Qed.

Lemma empty_completion_fails_witness :
  calls_to Writer (trace scripted topic true silent_research) = 0
  /\ calls_to Editor (trace scripted topic true silent_draft) = 0
  /\ errors (trace scripted topic true silent_final) = [editing_error].
Proof.
  pose (A := proj1 (empty_completion_fails scripted topic silent_research
                      eq_refl eq_refl) eq_refl).
  pose (B := proj2 (empty_completion_fails scripted topic silent_draft
                      eq_refl eq_refl) _ _ eq_refl eq_refl).
  pose (C := proj2 (proj2 (empty_completion_fails scripted topic silent_final
                             eq_refl eq_refl) _ _ eq_refl eq_refl)
               _ _ eq_refl eq_refl eq_refl).
  split; [exact (proj1 (proj2 (proj2 (proj2 (proj2 A)))))|].
  split; [exact (proj2 (proj2 (proj2 (proj2 (proj1 B eq_refl)))))|].
  exact (proj1 (proj2 (proj2 C))).
Defined.

(** *** The calls *)

Section AllRuns.

Variable St : Type.
Variable service : St -> chat_call -> reply * St.

(** Follow a run through every branch of the script. *)
Ltac follow_run :=
  repeat
    match goal with
    | |- context [page service _ _ _] => rewrite page_run
    | |- context [research_stage service _ _] => rewrite research_stage_run
    | |- context [writing_stage service _ _] => rewrite writing_stage_run
    | |- context [editing_stage service _ _] => rewrite editing_stage_run
    | |- context [match service ?s ?c with _ => _ end] =>
        destruct (service s c) as [[|?] ?]
    | |- context [if ?b then _ else _] => destruct b
    end.


(** The calls are addressed to the three agents in the fixed order. *)
Lemma calls_in_order blog_name clicked s0 :
  exists k,
    map (fun e => match e with
                  | InitiateChat r _ _ _ => r
                  | _ => Researcher
                  end)
        (filter is_call (trace service blog_name clicked s0))
    = firstn k [Researcher; Writer; Editor].
Proof.
  unfold trace. follow_run; unfold editing_events; follow_run; cbn;
    first [ now exists 0 | now exists 1 | now exists 2 | now exists 3 ].
Qed.

End AllRuns.




(** The proxy itself is built with a budget of 2; the calls pass their own. *)
Example proxy_default_budget (key : option pystr) :
  proxy_max_consecutive_auto_reply (user_proxy key) = 2.
Proof. reflexivity. Qed.

(** A complete run makes exactly the three calls, each with budget 1. *)
Example budgets_of_a_complete_run :
  budgets (trace scripted topic true filler_draft) = [1; 1; 1].
Proof. reflexivity. Qed.

(** C9.  The three agents share one [llm_config]: temperature 0.7 and seed
    42, the same for every role; every completion request of a trace runs
    under that configuration, which depends neither on the prompt nor on
    the state of the service. *)
Theorem fixed_sampling_configuration
    (key : option pystr) (role role' : Role) (e : event) :
  temperature (agent_llm_config (agent_of key role)) = (7 # 10)%Q
  /\ seed (agent_llm_config (agent_of key role)) = 42%Z
  /\ agent_llm_config (agent_of key role)
     = agent_llm_config (agent_of key role')
  /\ match request_config key e with
     | Some c => c = llm_config key
                 /\ temperature c = (7 # 10)%Q /\ seed c = 42%Z
     | None => True
     end.
Proof.
  repeat split; try (destruct role; reflexivity).
  - destruct role, role'; reflexivity.
  - destruct e as [| | | | | | | | | | |r m c n]; try exact I.
    destruct r; repeat split.
Qed.

(** C10.  With an empty topic and the button pressed, the page shows the
    warning and makes no call: the service is left in its state. *)
Theorem empty_topic_warning
    (St : Type) (service : St -> chat_call -> reply * St) (s0 : St) :
  page service [] true s0
    = (Done tt, s0, page_head ++ [StWarning topic_warning])
  /\ filter is_call (trace service [] true s0) = []
  /\ warnings (trace service [] true s0) = [topic_warning].
Proof. repeat split. Qed.

(** ** The validator, stage by stage *)

(** The writing check does not look for the filler prefixes: both sample
    texts pass it, and the page goes on to call the Editor with the
    filler text as the draft. *)
Lemma writer_accepts_filler :
  validate Writer (str "Okay, I will draft this now.")
    = Accepted (str "Okay, I will draft this now.")
  /\ validate Writer (str "OKAY sure") = Accepted (str "OKAY sure")
  /\ calls_to Editor (trace scripted topic true filler_draft) = 1
  /\ successes (trace scripted topic true filler_draft) = [success_text].
Proof. vm_compute. repeat split. Qed.

Lemma filler_is_no_other_prefix (x : pystr) :
  startswith x (str "okay") = true \/ startswith x (str "awaiting") = true ->
  x <> []
  /\ startswith x (str "i cannot create") = false
  /\ startswith x (str "i will now proceed") = false.
Proof.
  intros [H|H]; apply startswith_spec in H; destruct H as [r ->];
    repeat split; discriminate.
Qed.

Lemma strip_nonempty (t : pystr) : lower (strip t) <> [] -> truthy t = true.
Proof. destruct t; [intros H; now destruct H | reflexivity]. Qed.

(** C5, as the code has it.  On a text whose stripped, lower-cased form
    begins with "okay" or "awaiting": the research check rejects it; the
    writing check and the editing check do not look at that prefix, they
    reject the text exactly when it contains their own placeholder and
    accept it unchanged otherwise.  A text beginning with "i will now
    proceed" is rejected by all three checks, one beginning with
    "i cannot create" by the writing check. *)
Theorem filler_prefix_rejection (text : pystr) :
  (startswith (lower (strip text)) (str "okay") = true
   \/ startswith (lower (strip text)) (str "awaiting") = true ->
   validate Researcher text = Rejected research_error
   /\ validate Writer text
      = (if contains draft_placeholder text
         then Rejected writing_error else Accepted text)
   /\ validate Editor text
      = (if contains final_placeholder text
         then Rejected editing_error else Accepted text))
  /\ (startswith (lower (strip text)) (str "i will now proceed") = true ->
      forall role, is_rejected (validate role text) = true)
  /\ (startswith (lower (strip text)) (str "i cannot create") = true ->
      validate Writer text = Rejected writing_error).
Proof.
  split; [|split].
  - intros H.
    destruct (@filler_is_no_other_prefix _ H) as [N [C P]].
    apply strip_nonempty in N.
    split; [|split].
    + unfold validate, research_invalid.
      destruct H as [-> | ->]; now rewrite ?orb_true_r.
    + unfold validate, draft_invalid. rewrite N, C, P.
      now destruct (contains draft_placeholder text).
    + unfold validate, final_ok. rewrite N, P.
      now destruct (contains final_placeholder text).
  - intros H role.
    destruct role;
      [rewrite validate_researcher; unfold research_invalid
      |rewrite validate_writer; unfold draft_invalid
      |rewrite validate_editor; unfold final_ok];
      rewrite H; now rewrite ?orb_true_r, ?andb_false_r.
  - intros H. unfold validate, draft_invalid.
    now rewrite H, ?orb_true_r.
Qed.

Lemma filler_prefix_rejection_witness :
  validate Researcher (str "  Okay, I will draft this now.")
    = Rejected research_error
  /\ validate Writer (str "  Okay, I will draft this now.")
     = Accepted (str "  Okay, I will draft this now.")
  /\ validate Editor (str "Awaiting your input")
     = Accepted (str "Awaiting your input")
  /\ is_rejected (validate Editor (str "I Will Now Proceed to edit")) = true
  /\ validate Writer (str "I cannot create this content.")
     = Rejected writing_error.
Proof.
  pose (A := proj1 (filler_prefix_rejection
                      (str "  Okay, I will draft this now."))
               (or_introl eq_refl)).
  pose (B := proj1 (filler_prefix_rejection (str "Awaiting your input"))
               (or_intror eq_refl)).
  split; [exact (proj1 A)|].
  split; [exact (proj1 (proj2 A))|].
  split; [exact (proj2 (proj2 B))|].
  split.
  - exact (proj1 (proj2 (filler_prefix_rejection
                           (str "I Will Now Proceed to edit")))
             eq_refl Editor).
  - exact (proj2 (proj2 (filler_prefix_rejection
                           (str "I cannot create this content.")))
             eq_refl).
Defined.

(** A text that only quotes the research placeholder is rejected, though
    it is not empty, is none of the placeholders and meets none of the
    other conditions of the research check. *)
Lemma quoted_sentinel_rejected :
  validate Researcher quoted_sentinel = Rejected research_error
  /\ quoted_sentinel <> []
  /\ quoted_sentinel <> research_placeholder
  /\ quoted_sentinel <> draft_placeholder
  /\ quoted_sentinel <> final_placeholder
  /\ startswith (lower (strip quoted_sentinel)) (str "okay") = false
  /\ startswith (lower (strip quoted_sentinel)) (str "awaiting") = false
  /\ contains (str "fact-checking process") (lower quoted_sentinel) = false
  /\ contains (str "visual integration") (lower quoted_sentinel) = false
  /\ startswith (lower (strip quoted_sentinel)) (str "i will now proceed")
     = false.
Proof. vm_compute. repeat split; discriminate. Qed.

Lemma truthy_false (t : pystr) : negb (truthy t) = true <-> t = [].
Proof. destruct t; simpl; split; congruence. Qed.

Lemma verdict_iff (b : bool) (t reason : pystr) (v : verdict) (P : Prop) :
  v = (if b then Rejected reason else Accepted t) ->
  (b = true <-> P) ->
  (v = Rejected reason <-> P).
Proof. intros -> <-. destruct b; split; congruence. Qed.

(** C6, as the code has it.  Each stage rejects a text exactly when the
    text is empty, contains (anywhere) that stage's own placeholder, or
    meets one of that stage's prefix or phrase conditions; every other
    text is accepted unchanged. *)
Theorem validate_characterisation (t : pystr) :
  (validate Researcher t = Rejected research_error <->
     t = []
     \/ (exists a b, t = a ++ research_placeholder ++ b)
     \/ (exists r, lower (strip t) = str "okay" ++ r)
     \/ (exists r, lower (strip t) = str "awaiting" ++ r)
     \/ (exists a b, lower t = a ++ str "fact-checking process" ++ b)
     \/ (exists a b, lower t = a ++ str "visual integration" ++ b)
     \/ (exists r, lower (strip t) = str "i will now proceed" ++ r))
  /\ (validate Writer t = Rejected writing_error <->
     t = []
     \/ (exists a b, t = a ++ draft_placeholder ++ b)
     \/ (exists r, lower (strip t) = str "i cannot create" ++ r)
     \/ (exists r, lower (strip t) = str "i will now proceed" ++ r))
  /\ (validate Editor t = Rejected editing_error <->
     t = []
     \/ (exists a b, t = a ++ final_placeholder ++ b)
     \/ (exists r, lower (strip t) = str "i will now proceed" ++ r))
  /\ (forall role,
        is_rejected (validate role t) = false -> validate role t = Accepted t).
Proof.
  split; [|split; [|split]].
  - rewrite <- truthy_false, <- !contains_spec, <- !startswith_spec.
    apply verdict_iff with (b := research_invalid t) (t := t); [reflexivity|].
    unfold research_invalid. rewrite !orb_true_iff. tauto.
  - rewrite <- truthy_false, <- !contains_spec, <- !startswith_spec.
    apply verdict_iff with (b := draft_invalid t) (t := t); [reflexivity|].
    unfold draft_invalid. rewrite !orb_true_iff. tauto.
  - rewrite <- truthy_false, <- !contains_spec, <- !startswith_spec.
    apply verdict_iff with (b := negb (final_ok t)) (t := t).
    + unfold validate. now destruct (final_ok t).
    + unfold final_ok.
      rewrite !negb_andb, !negb_involutive, !orb_true_iff. tauto.
  - intros role. unfold validate.
    destruct role;
      [destruct (research_invalid t) | destruct (draft_invalid t)
      |destruct (final_ok t)]; simpl; congruence.
Qed.

Lemma validate_characterisation_witness :
  validate Researcher quoted_sentinel = Rejected research_error.
Proof.
  apply (proj2 (proj1 (validate_characterisation quoted_sentinel))).
  right; left. exists (str "Note: "), (str " (see above)"). reflexivity.
Defined.

(** * Further properties of the code *)

(** ** The sanitizer's output *)

Section SanitizerOutput.

Implicit Types s t : pystr.

Lemma after_newline_suffix s r :
  after_newline s = Some r -> exists pre, s = pre ++ r.
Proof.
  revert r; induction s as [|c s IH]; intros r; simpl; [discriminate|].
  destruct (Ascii.eqb "010"%char c).
  - intros H. injection H as ->. now exists [c].
  - intros H. destruct (IH _ H) as [pre ->]. now exists (c :: pre).
Qed.

Lemma drop_leading_suffix s : exists a, s = a ++ drop_leading_banner s.
Proof.
  unfold drop_leading_banner.
  destruct (startswith (lstrip s) marker) eqn:E; [|now exists []].
  destruct (after_newline _) as [r|] eqn:F; [|now exists []].
  destruct (lstrip_split s) as [w [Hw _]].
  apply startswith_skipn in E. apply after_newline_suffix in F.
  destruct F as [pre F]. exists (w ++ marker ++ pre).
  rewrite Hw at 1. rewrite E at 1. rewrite F at 1.
  now rewrite <- !app_assoc.
Qed.

Lemma strip_substring s : exists a b, s = a ++ strip s ++ b.
Proof.
  destruct (lstrip_split s) as [w [Hw _]].
  destruct (rstrip_split (lstrip s)) as [w' [Hw' _]].
  exists w, w'. unfold strip. now rewrite <- Hw', <- Hw.
Qed.

Lemma clean_substring s : exists a b, s = a ++ clean_agent_output s ++ b.
Proof.
  rewrite clean_agent_output_eq.
  destruct (drop_leading_suffix s) as [a Ha].
  destruct (cut_split (drop_leading_banner s)) as [b [Hb _]].
  destruct (strip_substring (cut_trailing_banner (drop_leading_banner s)))
    as [a' [b' H]].
  exists (a ++ a'), (b' ++ b).
  rewrite Ha at 1. rewrite Hb at 1. rewrite H at 1.
  now rewrite <- !app_assoc.
Qed.

Lemma clean_shrinks_or_fixes s :
  clean_agent_output s = s
  \/ List.length (clean_agent_output s) < List.length s.
Proof.
  destruct (clean_substring s) as [a [b H]].
  destruct a as [|x a].
  - destruct b as [|y b].
    + left. now rewrite app_nil_r in H.
    + right. rewrite H at 2. rewrite !length_app. simpl. lia.
  - right. rewrite H at 2. rewrite !length_app. simpl. lia.
Qed.

Lemma passes_fixed n s :
  clean_agent_output s = s -> sanitize_passes n s = s.
Proof.
  intros H. induction n as [|n IH]; [reflexivity|].
  unfold sanitize_passes in *. simpl. now rewrite IH.
Qed.

Lemma passes_converge : forall n s,
  List.length s <= n ->
  clean_agent_output (sanitize_passes n s) = sanitize_passes n s.
Proof.
  induction n as [|n IH]; intros s H.
  - destruct s; [reflexivity | inversion H].
  - unfold sanitize_passes. rewrite Nat.iter_succ_r.
    destruct (clean_shrinks_or_fixes s) as [E|L].
    + rewrite E. fold (sanitize_passes n s).
      now rewrite (passes_fixed n E).
    + apply IH. lia.
Qed.

Lemma blanks_no_banner s :
  forallb is_space s = true -> contains banner s = false.
Proof.
  intros H. destruct (contains banner s) eqn:E; [|reflexivity].
  apply contains_spec in E. destruct E as [a [b ->]].
  rewrite !forallb_app in H. apply andb_true_iff in H. destruct H as [_ H].
  apply andb_true_iff in H. destruct H as [H _]. discriminate H.
Qed.

Lemma lstrip_all_blanks s : forallb is_space s = true -> lstrip s = [].
Proof.
  induction s as [|c s IH]; simpl; [reflexivity|].
  intros H. apply andb_true_iff in H. destruct H as [-> H]. auto.
Qed.

End SanitizerOutput.

(** X1.  Whatever the input, the sanitized text has no blank at either end
    (stripping it again changes nothing, so the [.strip()] of the
    validation conditions is a no-op on it) and the sequence newline +
    marker does not occur in it. *)
Theorem sanitized_text_is_tidy (s : pystr) :
  strip (clean_agent_output s) = clean_agent_output s
  /\ lstrip (clean_agent_output s) = clean_agent_output s
  /\ rstrip (clean_agent_output s) = clean_agent_output s
  /\ contains banner (clean_agent_output s) = false
  /\ lower (strip (clean_agent_output s)) = lower (clean_agent_output s).
Proof.
  destruct (clean_fixed_tail s) as [Hcut Hstrip].
  assert (L : lstrip (clean_agent_output s) = clean_agent_output s).
  { rewrite clean_agent_output_eq. apply lstrip_strip. }
  repeat split.
  - exact Hstrip.
  - exact L.
  - unfold strip in Hstrip. now rewrite L in Hstrip.
  - rewrite clean_agent_output_eq.
    apply contains_strip, cut_no_banner.
  - now rewrite Hstrip.
Qed.

(** X2.  The sanitizer only deletes at the two ends: its result is one
    contiguous piece of the input, so it is never longer than the input
    and nothing is inserted or reordered. *)
Theorem sanitizer_only_trims (s : pystr) :
  (exists before after, s = before ++ clean_agent_output s ++ after)
  /\ List.length (clean_agent_output s) <= List.length s.
Proof.
  destruct (clean_substring s) as [a [b H]]. split.
  - now exists a, b.
  - rewrite H at 2. rewrite !length_app. lia.
Qed.

(** X3.  Sanitizing again and again comes to rest: after as many passes
    as the input has characters, one more pass changes nothing. *)
Theorem sanitizer_passes_converge (s : pystr) :
  clean_agent_output (sanitize_passes (List.length s) s)
  = sanitize_passes (List.length s) s.
Proof. apply passes_converge. lia. Qed.

(** X4.  A completion of blanks only is cleaned to the empty string, and
    the empty string is rejected by the check of every stage. *)
Theorem blank_completion_rejected (s : pystr) :
  forallb is_space s = true ->
  clean_agent_output s = []
  /\ forall role, is_rejected (validate role (clean_agent_output s)) = true.
Proof.
  intros H.
  assert (E : clean_agent_output s = []).
  { rewrite clean_agent_output_eq. unfold drop_leading_banner.
    rewrite lstrip_all_blanks by exact H. cbn [startswith marker str].
    change (startswith [] (list_ascii_of_string ">>>>>>>> ")) with false.
    cbv iota. rewrite cut_fixed by now apply blanks_no_banner.
    unfold strip. now rewrite lstrip_all_blanks by exact H. }
  split; [exact E|]. rewrite E. intros role. destruct role; reflexivity.
Qed.

Lemma blank_completion_rejected_witness :
  clean_agent_output (str "   " ++ str nl ++ str " ") = []
  /\ is_rejected (validate Writer
                    (clean_agent_output (str "   " ++ str nl ++ str " ")))
     = true.
Proof.
  pose (W := blank_completion_rejected (str "   " ++ str nl ++ str " ")
               eq_refl).
  exact (conj (proj1 W) (proj2 W Writer)).
Defined.

(** ** The termination test of the proxy *)

Section TerminationMsg.

Implicit Types s p : pystr.

Lemma endswith_spec s p : endswith s p = true <-> exists body, s = body ++ p.
Proof.
  unfold endswith. rewrite startswith_spec. split.
  - intros [r H]. exists (rev r).
    rewrite <- (rev_involutive s), H, rev_app_distr.
    now rewrite rev_involutive.
  - intros [body ->]. exists (rev body). apply rev_app_distr.
Qed.

Lemma rstrip_blanks s w : forallb is_space w = true -> rstrip (s ++ w) = rstrip s.
Proof.
  intros H. unfold rstrip. rewrite rev_app_distr, lstrip_blanks; [reflexivity|].
  rewrite forallb_forall in *. intros x Hx. apply H. now apply in_rev.
Qed.

Lemma rstrip_fixed s c :
  is_space c = false -> rstrip (s ++ [c]) = s ++ [c].
Proof.
  intros H. unfold rstrip. rewrite rev_app_distr. simpl. rewrite H.
  change (c :: rev s) with (rev [c] ++ rev s).
  now rewrite <- rev_app_distr, rev_involutive.
Qed.

Lemma dict_get_missing (d : pydict) (k : pystr) (default : pyval) :
  (forall v, ~ In (k, v) d) -> dict_get d k default = default.
Proof.
  induction d as [|[k' v'] d IH]; intros H; simpl; [reflexivity|].
  unfold pystr_eqb. destruct (list_eq_dec ascii_dec k' k) as [->|_].
  - exfalso. apply (H v'). now left.
  - apply IH. intros v I. apply (H v). now right.
Qed.

End TerminationMsg.

(** X5.  [is_termination_msg] holds of a message exactly when its content
    is some text, then TERMINATE, then blanks only; a message without a
    content is no termination message, and a content of [None] makes the
    test raise. *)
Theorem termination_msg_spec (x : pydict) :
  (forall content,
     dict_get x (str "content") (PyStr (str "")) = PyStr content ->
     (is_termination_msg x = Done true <->
      exists body blanks,
        content = body ++ str "TERMINATE" ++ blanks
        /\ forallb is_space blanks = true))
  /\ ((forall v, ~ In (str "content", v) x) ->
      is_termination_msg x = Done false)
  /\ (dict_get x (str "content") (PyStr (str "")) = PyNone ->
      is_termination_msg x = Raised).
Proof.
  unfold is_termination_msg. split; [|split].
  - intros content ->. split.
    + intros H. injection H as H. apply endswith_spec in H.
      destruct H as [body H].
      destruct (rstrip_split content) as [w [Hw Hb]].
      exists body, w. split; [|exact Hb].
      rewrite Hw at 1. rewrite H. now rewrite <- app_assoc.
    + intros [body [w [-> Hb]]]. f_equal. apply endswith_spec.
      exists body. rewrite app_assoc, rstrip_blanks by exact Hb.
      change (str "TERMINATE") with (str "TERMINAT" ++ ["E"%char]).
      rewrite app_assoc. now apply rstrip_fixed.
  - intros H. now rewrite dict_get_missing.
  - now intros ->.
Qed.

Lemma termination_msg_spec_witness :
  is_termination_msg done_message = Done true
  /\ is_termination_msg contentless_message = Done false.
Proof.
  split.
  - apply (proj1 (termination_msg_spec done_message)
             (str "All done. TERMINATE" ++ str nl) eq_refl).
    exists (str "All done. "), (str nl). split; reflexivity.
  - apply (proj1 (proj2 (termination_msg_spec contentless_message))).
    intros v [H|[]]. discriminate H.
Defined.

(** ** Letter case *)

Lemma is_space_lower (c : ascii) : is_space (lower_char c) = is_space c.
Proof. destruct c as [[] [] [] [] [] [] [] []]; reflexivity. Qed.

Lemma lstrip_lower (s : pystr) : lstrip (lower s) = lower (lstrip s).
Proof.
  induction s as [|c s IH]; [reflexivity|].
  cbn [lower map lstrip]. rewrite is_space_lower.
  destruct (is_space c); [exact IH | reflexivity].
Qed.

Lemma rev_lower (s : pystr) : rev (lower s) = lower (rev s).
Proof. unfold lower. symmetry. apply map_rev. Qed.

Lemma strip_lower (s : pystr) : strip (lower s) = lower (strip s).
Proof.
  unfold strip, rstrip.
  now rewrite lstrip_lower, rev_lower, lstrip_lower, rev_lower.
Qed.

(** X6.  Apart from the placeholder test, which compares case-sensitively,
    the three checks look at the lower-cased text only: two texts that
    agree up to letter case and on containing the stage's placeholder get
    the same verdict from that stage. *)
Theorem verdict_ignores_case (t t' : pystr) :
  lower t = lower t' ->
  (contains research_placeholder t = contains research_placeholder t' ->
   is_rejected (validate Researcher t) = is_rejected (validate Researcher t'))
  /\ (contains draft_placeholder t = contains draft_placeholder t' ->
      is_rejected (validate Writer t) = is_rejected (validate Writer t'))
  /\ (contains final_placeholder t = contains final_placeholder t' ->
      is_rejected (validate Editor t) = is_rejected (validate Editor t')).
Proof.
  intros L.
  assert (S : lower (strip t) = lower (strip t'))
    by now rewrite <- !strip_lower, L.
  assert (T : truthy t = truthy t').
  { destruct t, t'; try reflexivity; discriminate L. }
  rewrite !validate_researcher, !validate_writer, !validate_editor.
  unfold research_invalid, draft_invalid, final_ok.
  repeat split; intros ->; now rewrite S, T, ?L.
Qed.

Lemma verdict_ignores_case_witness :
  is_rejected (validate Writer (str "I CANNOT create that."))
  = is_rejected (validate Writer (str "i cannot Create THAT.")).
Proof.
  exact (proj1 (proj2 (@verdict_ignores_case
                         (str "I CANNOT create that.")
                         (str "i cannot Create THAT.") eq_refl))
           eq_refl).
Defined.

(** ** More about runs of the page *)

Section RunFacts.

Variable St : Type.
Variable service : St -> chat_call -> reply * St.

#[local] Arguments final_blog_post : simpl never.
#[local] Arguments blog_post_draft : simpl never.
#[local] Arguments research_content : simpl never.
#[local] Arguments research_task : simpl never.
#[local] Arguments writing_task : simpl never.
#[local] Arguments editing_task : simpl never.
#[local] Arguments str : simpl never.

(** Every branch of the script, remembering which way each test went. *)
Ltac every_run :=
  repeat
    match goal with
    | |- context [page service _ _ _] => rewrite page_run
    | |- context [research_stage service _ _] => rewrite research_stage_run
    | |- context [writing_stage service _ _] => rewrite writing_stage_run
    | |- context [editing_stage service _ _] =>
        rewrite editing_stage_run; unfold editing_events
    | |- context [match service ?s ?c with _ => _ end] =>
        destruct (service s c) as [[|?] ?]
    | |- context [if ?b then _ else _] => destruct b eqn:?
    end.

Lemma run_statuses blog_name clicked s0 :
  List.length (status_messages (trace service blog_name clicked s0)) <= 1
  /\ List.length (written (trace service blog_name clicked s0)) <= 1
  /\ (successes (trace service blog_name clicked s0) = []
      \/ (successes (trace service blog_name clicked s0) = [success_text]
          /\ errors (trace service blog_name clicked s0) = []
          /\ List.length (filter is_call (trace service blog_name clicked s0))
             = 3
          /\ exists final,
               written (trace service blog_name clicked s0) = [final]
               /\ validate Editor final = Accepted final)).
Proof.
  unfold trace. every_run; cbn; repeat split; auto.
  right. repeat split.
  eexists. split; [reflexivity|]. unfold validate.
  match goal with H : final_ok _ = true |- _ => now rewrite H end.
Qed.

Lemma run_research_calls blog_name clicked s0 :
  calls_to Researcher (trace service blog_name clicked s0)
  = (if clicked && truthy blog_name then 1 else 0)
  /\ (calls_to Writer (trace service blog_name clicked s0)
      <= calls_to Researcher (trace service blog_name clicked s0))
  /\ (calls_to Editor (trace service blog_name clicked s0)
      <= calls_to Writer (trace service blog_name clicked s0)).
Proof.
  unfold trace. rewrite page_run.
  destruct clicked, (truthy blog_name); cbn [andb];
    every_run; cbn; repeat split; auto.
Qed.

Lemma run_forwards blog_name clicked s0 :
  Forall forwards_accepted (trace service blog_name clicked s0).
Proof.
  unfold trace.
  every_run; cbn; repeat constructor;
    eexists; (split; [reflexivity|]); unfold validate;
    match goal with
    | H : research_invalid ?c = false |- context [research_invalid ?c] =>
        now rewrite H
    | H : draft_invalid ?c = false |- context [draft_invalid ?c] =>
        now rewrite H
    end.
Qed.


End RunFacts.

(** X7.  An exception raised by [initiate_chat] is not caught by the
    script: the run ends at that call with the exception going out of the
    script (what the host does with it is not the script's), the spinner
    block is left, no later stage is called, and the script itself makes
    no [st.error], [st.success] or [st.write] call. *)
Theorem service_failure_propagates
    (St : Type) (service : St -> chat_call -> reply * St)
    (blog_name : pystr) (s0 : St) :
  truthy blog_name = true ->
  (forall s1,
     service s0 (research_call blog_name) = (Raises, s1) ->
     page service blog_name true s0 =
       (Raised, s1,
        page_head ++ [SpinnerEnter spinner_text;
                      call_event (research_call blog_name); SpinnerExit]))
  /\
  (forall r1 s1 s2,
     service s0 (research_call blog_name) = (Returns r1, s1) ->
     research_invalid (research_content r1) = false ->
     service s1 (writing_call (research_content r1)) = (Raises, s2) ->
     page service blog_name true s0 =
       (Raised, s2,
        page_head ++ [SpinnerEnter spinner_text;
                      call_event (research_call blog_name);
                      StInfo writer_info;
                      call_event (writing_call (research_content r1));
                      SpinnerExit]))
  /\
  (forall r1 s1 r2 s2 s3,
     service s0 (research_call blog_name) = (Returns r1, s1) ->
     research_invalid (research_content r1) = false ->
     service s1 (writing_call (research_content r1)) = (Returns r2, s2) ->
     draft_invalid (blog_post_draft r2) = false ->
     service s2 (editing_call (blog_post_draft r2)) = (Raises, s3) ->
     page service blog_name true s0 =
       (Raised, s3,
        page_head ++ [SpinnerEnter spinner_text;
                      call_event (research_call blog_name);
                      StInfo writer_info;
                      call_event (writing_call (research_content r1));
                      StInfo editor_info;
                      call_event (editing_call (blog_post_draft r2));
                      SpinnerExit])).
Proof.
  intros Hb. split; [|split].
  - intros s1 H1. now rewrite page_run, Hb, research_stage_run, H1.
  - intros r1 s1 s2 H1 V1 H2.
    now rewrite page_run, Hb, research_stage_run, H1, V1,
      writing_stage_run, H2.
  - intros r1 s1 r2 s2 s3 H1 V1 H2 V2 H3.
    now rewrite page_run, Hb, research_stage_run, H1, V1,
      writing_stage_run, H2, V2, editing_stage_run, H3.
Qed.

Lemma service_failure_propagates_witness :
  result scripted topic true down_at_once = Raised
  /\ status_messages (trace scripted topic true down_at_writing) = []
  /\ written (trace scripted topic true down_at_editing) = [].
Proof.
  pose (A := proj1 (service_failure_propagates scripted topic down_at_once
                      eq_refl) _ eq_refl).
  pose (B := proj1 (proj2 (service_failure_propagates scripted topic
                             down_at_writing eq_refl))
               _ _ _ eq_refl eq_refl eq_refl).
  pose (C := proj2 (proj2 (service_failure_propagates scripted topic
                             down_at_editing eq_refl))
               _ _ _ _ _ eq_refl eq_refl eq_refl eq_refl eq_refl).
  split; [|split].
  - unfold result. now rewrite A.
  - unfold trace. now rewrite B.
  - unfold trace. now rewrite C.
Defined.

(** X8.  When the three stages answer and each cleaned answer passes its
    check, the run makes exactly the three calls in order, each next
    prompt built from the previous cleaned answer, shows the cleaned
    editor answer under the final header and ends with the success
    message. *)
Theorem pipeline_success
    (St : Type) (service : St -> chat_call -> reply * St)
    (blog_name : pystr) (s0 s1 s2 s3 : St) (r1 r2 r3 : option ChatResult) :
  truthy blog_name = true ->
  service s0 (research_call blog_name) = (Returns r1, s1) ->
  validate Researcher (research_content r1) = Accepted (research_content r1) ->
  service s1 (writing_call (research_content r1)) = (Returns r2, s2) ->
  validate Writer (blog_post_draft r2) = Accepted (blog_post_draft r2) ->
  service s2 (editing_call (blog_post_draft r2)) = (Returns r3, s3) ->
  validate Editor (final_blog_post r3) = Accepted (final_blog_post r3) ->
  page service blog_name true s0 =
    (Done tt, s3,
     page_head ++
     [ SpinnerEnter spinner_text;
       InitiateChat Researcher (research_task blog_name) true 1;
       StInfo writer_info;
       InitiateChat Writer (writing_task (research_content r1)) true 1;
       StInfo editor_info;
       InitiateChat Editor (editing_task (blog_post_draft r2)) true 1;
       StSubheader final_header;
       StWrite (final_blog_post r3);
       StSuccess success_text;
       SpinnerExit ]).
Proof.
  intros Hb H1 A1 H2 A2 H3 A3.
  assert (V1 : research_invalid (research_content r1) = false).
  { rewrite <- validate_researcher. now rewrite A1. }
  assert (V2 : draft_invalid (blog_post_draft r2) = false).
  { rewrite <- validate_writer. now rewrite A2. }
  assert (V3 : final_ok (final_blog_post r3) = true).
  { apply negb_false_iff. rewrite <- validate_editor. now rewrite A3. }
  rewrite (run_editing service blog_name s0 Hb H1 V1 H2 V2 H3).
  unfold editing_events. now rewrite V3.
Qed.

Lemma pipeline_success_witness :
  written (trace scripted topic true all_good) = [str "a polished paragraph"]
  /\ successes (trace scripted topic true all_good) = [success_text]
  /\ errors (trace scripted topic true all_good) = [].
Proof.
  pose (A := pipeline_success scripted topic all_good
               eq_refl eq_refl eq_refl eq_refl eq_refl eq_refl eq_refl).
  unfold trace. rewrite A. repeat split.
Defined.

(** X9.  In every run the page shows at most one status message (error,
    success or warning) and writes at most one text; the success message
    appears only after all three calls, together with a written final
    text that passes the editing check, and never beside an error. *)
Theorem one_status_message
    (St : Type) (service : St -> chat_call -> reply * St)
    (blog_name : pystr) (clicked : bool) (s0 : St) :
  List.length (status_messages (trace service blog_name clicked s0)) <= 1
  /\ List.length (written (trace service blog_name clicked s0)) <= 1
  /\ (successes (trace service blog_name clicked s0) = []
      \/ (successes (trace service blog_name clicked s0) = [success_text]
          /\ errors (trace service blog_name clicked s0) = []
          /\ List.length (filter is_call (trace service blog_name clicked s0))
             = 3
          /\ exists final,
               written (trace service blog_name clicked s0) = [final]
               /\ validate Editor final = Accepted final)).
Proof. apply run_statuses. Qed.

(** X10.  The Researcher is called exactly once when the button was
    pressed with a non-empty topic (blank topics included) and not at all
    otherwise; the Writer is called at most as often as the Researcher
    and the Editor at most as often as the Writer. *)
Theorem stage_call_counts
    (St : Type) (service : St -> chat_call -> reply * St)
    (blog_name : pystr) (clicked : bool) (s0 : St) :
  calls_to Researcher (trace service blog_name clicked s0)
  = (if clicked && truthy blog_name then 1 else 0)
  /\ (calls_to Writer (trace service blog_name clicked s0)
      <= calls_to Researcher (trace service blog_name clicked s0))
  /\ (calls_to Editor (trace service blog_name clicked s0)
      <= calls_to Writer (trace service blog_name clicked s0)).
Proof. apply run_research_calls. Qed.

(** X11.  Whatever the service answers, every prompt sent to the Writer
    is the writing task built from research content that passed the
    research check, and every prompt sent to the Editor is the editing
    task built from a draft that passed the writing check: rejected
    output is never forwarded. *)
Theorem only_accepted_content_is_forwarded
    (St : Type) (service : St -> chat_call -> reply * St)
    (blog_name : pystr) (clicked : bool) (s0 : St) :
  Forall forwards_accepted (trace service blog_name clicked s0).
Proof. apply run_forwards. Qed.

(** X12.  The calls of a run are addressed, in this order, to the
    Researcher, the Writer and the Editor, or to a first part of that
    list: no stage is called twice, skipped or called out of order. *)
Theorem stages_called_in_order
    (St : Type) (service : St -> chat_call -> reply * St)
    (blog_name : pystr) (clicked : bool) (s0 : St) :
  exists k,
    map (fun e => match e with
                  | InitiateChat r _ _ _ => r
                  | _ => Researcher
                  end)
        (filter is_call (trace service blog_name clicked s0))
    = firstn k [Researcher; Writer; Editor].
Proof. apply calls_in_order. Qed.


(** ** Banners around and inside the content *)

Section Banners.

Implicit Types s p a x : pystr.

(** A prefix test on [a ++ x] is decided inside [a], or the pattern runs
    over the end of [a] and its rest starts [x]. *)
Lemma startswith_app_split : forall a p x,
  startswith (a ++ x) p = true ->
  startswith a p = true
  \/ exists p2, p = a ++ p2 /\ p2 <> [] /\ startswith x p2 = true.
Proof.
  induction a as [|c a IH]; intros p x H.
  - destruct p as [|h p]; [left; reflexivity|].
    right. exists (h :: p). repeat split; [discriminate | exact H].
  - destruct p as [|h p]; [left; reflexivity|].
    simpl in H. apply andb_true_iff in H. destruct H as [Hc H].
    destruct (IH _ _ H) as [L | [p2 [-> [N S]]]].
    + left. simpl. now rewrite Hc.
    + right. exists p2. apply Ascii.eqb_eq in Hc. subst h.
      repeat split; assumption.
Qed.

(** The newline of the banner occurs only at its head, so a banner cannot
    begin inside a text and end inside a banner that follows the text. *)
Lemma banner_no_overlap a x :
  a <> [] -> startswith (a ++ banner ++ x) banner = true ->
  startswith a banner = true.
Proof.
  intros Na H. apply startswith_app_split in H.
  destruct H as [H | [p2 [E [N S]]]]; [exact H|]. exfalso.
  destruct p2 as [|h p2]; [now apply N|].
  assert (Hh : h = "010"%char).
  { simpl in S. apply andb_true_iff in S. destruct S as [S _].
    now apply Ascii.eqb_eq in S. }
  subst h.
  assert (I : In "010"%char (tl banner)).
  { destruct a as [|c a]; [exfalso; now apply Na|]. rewrite E. simpl.
    apply in_or_app. right. now left. }
  vm_compute in I. intuition discriminate.
Qed.

Lemma cut_append_banner : forall a x,
  cut_trailing_banner (a ++ banner ++ x) = cut_trailing_banner a.
Proof.
  induction a as [|c a IH]; intros x.
  - reflexivity.
  - rewrite (cut_unfold (c :: a)).
    change ((c :: a) ++ banner ++ x) with (c :: (a ++ banner ++ x)).
    rewrite cut_unfold.
    destruct (startswith (c :: a) banner) eqn:E.
    + change (c :: a ++ banner ++ x) with ((c :: a) ++ (banner ++ x)).
      now rewrite (startswith_app_r _ _ _ E).
    + destruct (startswith (c :: a ++ banner ++ x) banner) eqn:F.
      * change (c :: a ++ banner ++ x) with ((c :: a) ++ banner ++ x) in F.
        apply banner_no_overlap in F; [congruence | discriminate].
      * now rewrite IH.
Qed.

Lemma lstrip_app s x : lstrip s <> [] -> lstrip (s ++ x) = lstrip s ++ x.
Proof.
  induction s as [|c s IH]; simpl; [now intros []|].
  destruct (is_space c); [exact IH | reflexivity].
Qed.

Lemma drop_leading_other s x :
  lstrip s <> [] -> startswith (lstrip s) (str ">") = false ->
  drop_leading_banner (s ++ x) = s ++ x /\ drop_leading_banner s = s.
Proof.
  intros N H. unfold drop_leading_banner. rewrite lstrip_app by exact N.
  destruct (lstrip s) as [|c t]; [now destruct N|].
  simpl in H |- *. rewrite andb_true_r in H.
  unfold marker, str. simpl. now rewrite H.
Qed.

End Banners.

(** X14.  A completion wrapped in banners is reduced to what is between
    them: blanks, a banner line closed by a newline, a body in which no
    banner occurs, then a banner and anything after it, comes back as the
    stripped body. *)
Theorem sanitizer_unwraps (blanks line body tail : pystr) :
  forallb is_space blanks = true ->
  ~ In "010"%char line ->
  contains banner body = false ->
  clean_agent_output
    (blanks ++ marker ++ line ++ str nl ++ body ++ banner ++ tail)
  = strip body.
Proof.
  intros Hb Hl Hc. rewrite clean_agent_output_eq.
  rewrite drop_leading_banner_line by assumption.
  now rewrite cut_append_banner, cut_fixed.
Qed.

Lemma sanitizer_unwraps_witness :
  clean_agent_output
    (str "  " ++ marker ++ str "USING AUTO REPLY..." ++ str nl
     ++ str " Tea is a drink. " ++ banner ++ str "TERMINATING RUN")
  = str "Tea is a drink.".
Proof.
  refine (@sanitizer_unwraps (str "  ") (str "USING AUTO REPLY...")
            (str " Tea is a drink. ") (str "TERMINATING RUN")
            eq_refl _ eq_refl).
  vm_compute. intuition discriminate.
Defined.

(** X15.  Everything from the first newline + marker on is discarded,
    content included: when a text starts, after blanks, with a character
    other than [>], appending a banner and any further text to it does
    not change the sanitized result. *)
Theorem sanitizer_drops_what_follows_a_banner (body tail : pystr) :
  lstrip body <> [] ->
  startswith (lstrip body) (str ">") = false ->
  clean_agent_output (body ++ banner ++ tail) = clean_agent_output body.
Proof.
  intros N H. rewrite !clean_agent_output_eq.
  destruct (@drop_leading_other body (banner ++ tail) N H) as [-> ->].
  now rewrite cut_append_banner.
Qed.

Lemma sanitizer_drops_what_follows_a_banner_witness :
  clean_agent_output
    (str "Intro." ++ banner ++ str "note" ++ str nl ++ str "The main part.")
  = str "Intro.".
Proof.
  refine (eq_trans
            (@sanitizer_drops_what_follows_a_banner (str "Intro.")
               (str "note" ++ str nl ++ str "The main part.") _ eq_refl)
            eq_refl).
  discriminate.
Defined.
